(** * processctrl: a shallow embedding of the process control state machine

    The development follows [process.go] (the platform independent
    controller) and the two platform back ends ([process_unix.go] and
    [process_windows.go], the files that define [Pause], [Resume] and
    [killWithSignal]).  The repository holds a second pair of back end
    files with [pauseImpl], [resumeImpl] and [killWithSignalImpl], which
    [process.go] never calls; they are not part of the model.

    - The [Process] struct is a record with the fields of the source.
    - The methods run in a small monad that threads the struct, reads the
      answers of the operating system from an oracle record and logs every
      request made to the operating system or to the Go runtime as an
      [event].  A nil dereference or a second [close] of a channel is a
      [Panic].
    - The mutex of the struct serialises the methods, so a method (or one
      critical section of the completion watcher) is one atomic step.
    - The goroutines a method starts show in the log as [EvGo] events.  The
      line streamers ([streamOutput]) only feed the queues and are not
      modelled further; the goroutine that waits for the command inside
      [killWithSignal] acts on the command when the [select] takes its
      value, and is left pending when the timer wins. *)

From Stdlib Require Import ZArith List String Bool Lia.
Import ListNotations.

Local Open Scope string_scope.
Local Open Scope Z_scope.

(** ** Errors *)

(** Error values.  [fmt.Errorf] without a wrapping verb gives [New_error],
    with [%w] it gives [Wrap_error]; the Windows back end formats a raw NT
    status into the message ([Status_error]).  Errors that come out of the
    operating system layer ([os], [os/exec], [syscall], [x/sys/windows])
    carry an error number; [Exit_error] is [*exec.ExitError]. *)
Inductive error : Type :=
| New_error (msg : string)
| Wrap_error (msg : string) (inner : error)
| Status_error (msg : string) (status : Z)
| Sys_error (errno : Z)
| Exit_error (code : Z).

Definition errAlreadyRunning : error := New_error "process already running".
Definition errNotRunning : error := New_error "process is not running".
Definition errPauseState : error :=
  New_error "process not running or already paused".
Definition errResumeState : error :=
  New_error "process not running or not paused".
Definition errStdinUnavailable : error := New_error "stdin not available".

(** [os.ErrClosed], the error of a write on a file that was closed. *)
Definition errClosed : error := New_error "file already closed".

(** The error kinds of the specification, and the kind of each error value
    the package builds itself. *)
Inductive ErrorKind : Type :=
| AlreadyRunning | NotRunning | InvalidState | StdinUnavailable | OtherError.

Definition kind_of (e : error) : ErrorKind :=
  match e with
  | New_error msg =>
      if String.eqb msg "process already running" then AlreadyRunning
      else if String.eqb msg "process is not running" then NotRunning
      else if String.eqb msg "process not running or already paused"
           then InvalidState
      else if String.eqb msg "process not running or not paused"
           then InvalidState
      else if String.eqb msg "stdin not available" then StdinUnavailable
      else OtherError
  | _ => OtherError
  end.

(** ** The data model *)

(** [time.Duration] counts nanoseconds. *)
Definition Duration : Type := Z.
Definition Nanosecond : Duration := 1.
Definition Microsecond : Duration := 1000 * Nanosecond.
Definition Millisecond : Duration := 1000 * Microsecond.
Definition Second : Duration := 1000 * Millisecond.

(** [defaultKillTimeout = 5 * time.Second], [streamGoroutines = 2]. *)
Definition defaultKillTimeout : Duration := 5 * Second.
Definition streamGoroutines : Z := 2.

(** A non-nil [context.Context]: the background context, which never
    fires, or one that can be cancelled.  The call of [RunWithContext] with
    a nil context, on which [exec.CommandContext] panics, is
    [RunWithContext_nilable None]. *)
Inductive Context : Type := Background | Cancellable.

(** [os.Process] and [os.ProcessState]. *)
Record OsProcess : Type := { Pid : Z }.
Record OsProcessState : Type := { ps_pid : Z; ExitCode : Z }.

Definition Success (s : OsProcessState) : bool := ExitCode s =? 0.

(** [exec.Cmd], with the fields the package touches. *)
Record Cmd : Type := {
  cmd_ctx : Context;
  Path : string;
  Args : list string;
  Cmd_Process : option OsProcess;            (* cmd.Process *)
  Cmd_ProcessState : option OsProcessState   (* cmd.ProcessState *)
}.

(** [exec.CommandContext(ctx, program, args...)]. *)
Definition CommandContext (ctx : Context) (prog : string) (a : list string)
  : Cmd :=
  {| cmd_ctx := ctx; Path := prog; Args := a;
     Cmd_Process := None; Cmd_ProcessState := None |}.

(** A [chan string]: its capacity and whether it has been closed. *)
Record chan : Type := { chan_cap : Z; chan_closed : bool }.

Definition make_chan (capacity : Z) : chan :=
  {| chan_cap := capacity; chan_closed := false |}.

(** The write end of the standard input pipe. *)
Record WriteCloser : Type := { wc_closed : bool }.

(** The [Process] struct of [process.go] (the mutex is the atomicity of the
    steps). *)
Record Process : Type := {
  program : string;
  args : list string;
  cmd : option Cmd;
  stdout : chan;
  stderr : chan;
  stdin : option WriteCloser;
  paused : bool;
  running : bool;
  bufferSize : Z;
  channelsClosed : bool
}.

Inductive chan_ref : Type := Stdout | Stderr.

Definition chan_of (w : chan_ref) (p : Process) : chan :=
  match w with Stdout => stdout p | Stderr => stderr p end.

(** Field updates. *)
Definition set_cmd (c : option Cmd) (p : Process) : Process :=
  {| program := program p; args := args p; cmd := c;
     stdout := stdout p; stderr := stderr p; stdin := stdin p;
     paused := paused p; running := running p;
     bufferSize := bufferSize p; channelsClosed := channelsClosed p |}.

Definition set_stdin (w : option WriteCloser) (p : Process) : Process :=
  {| program := program p; args := args p; cmd := cmd p;
     stdout := stdout p; stderr := stderr p; stdin := w;
     paused := paused p; running := running p;
     bufferSize := bufferSize p; channelsClosed := channelsClosed p |}.

Definition set_paused (b : bool) (p : Process) : Process :=
  {| program := program p; args := args p; cmd := cmd p;
     stdout := stdout p; stderr := stderr p; stdin := stdin p;
     paused := b; running := running p;
     bufferSize := bufferSize p; channelsClosed := channelsClosed p |}.

Definition set_running (b : bool) (p : Process) : Process :=
  {| program := program p; args := args p; cmd := cmd p;
     stdout := stdout p; stderr := stderr p; stdin := stdin p;
     paused := paused p; running := b;
     bufferSize := bufferSize p; channelsClosed := channelsClosed p |}.

Definition set_channelsClosed (b : bool) (p : Process) : Process :=
  {| program := program p; args := args p; cmd := cmd p;
     stdout := stdout p; stderr := stderr p; stdin := stdin p;
     paused := paused p; running := running p;
     bufferSize := bufferSize p; channelsClosed := b |}.

Definition set_chan (w : chan_ref) (c : chan) (p : Process) : Process :=
  match w with
  | Stdout =>
      {| program := program p; args := args p; cmd := cmd p;
         stdout := c; stderr := stderr p; stdin := stdin p;
         paused := paused p; running := running p;
         bufferSize := bufferSize p; channelsClosed := channelsClosed p |}
  | Stderr =>
      {| program := program p; args := args p; cmd := cmd p;
         stdout := stdout p; stderr := c; stdin := stdin p;
         paused := paused p; running := running p;
         bufferSize := bufferSize p; channelsClosed := channelsClosed p |}
  end.

Definition set_ProcessState (s : option OsProcessState) (c : Cmd) : Cmd :=
  {| cmd_ctx := cmd_ctx c; Path := Path c; Args := Args c;
     Cmd_Process := Cmd_Process c; Cmd_ProcessState := s |}.

Definition set_Process (pr : option OsProcess) (c : Cmd) : Cmd :=
  {| cmd_ctx := cmd_ctx c; Path := Path c; Args := Args c;
     Cmd_Process := pr; Cmd_ProcessState := Cmd_ProcessState c |}.

(** ** Requests to the operating system and to the runtime *)

Inductive Signal : Type := SIGSTOP | SIGCONT | SIGTERM.

Inductive Access : Type := PROCESS_SUSPEND_RESUME | PROCESS_TERMINATE.

Inductive goroutine : Type :=
| GoStream (w : chan_ref)      (* go streamOutput(pipe, ch, &wg) *)
| GoWatcher                    (* the completion watcher *)
| GoCmdWait.                   (* go func() { done <- p.cmd.Wait() }() *)

Inductive pipe_ref : Type := StdoutPipe | StderrPipe | StdinPipe.

Inductive event : Type :=
| EvPipe (w : pipe_ref)                 (* cmd.StdoutPipe() and the like *)
| EvPipeClose (w : pipe_ref)            (* pipe.Close() *)
| EvStart                               (* cmd.Start() *)
| EvGo (g : goroutine)                  (* a go statement *)
| EvSignal (s : Signal)                 (* cmd.Process.Signal(s) *)
| EvKill                                (* cmd.Process.Kill() *)
| EvTimeAfter (d : Duration)            (* time.After(d) *)
| EvCmdWait                             (* cmd.Wait() by the caller *)
| EvOpenProcess (a : Access)            (* windows.OpenProcess *)
| EvTerminateProcess (code : Z)         (* windows.TerminateProcess *)
| EvCloseHandle                         (* windows.CloseHandle *)
| EvNtSuspendProcess                    (* procNtSuspendProcess.Call *)
| EvNtResumeProcess                     (* procNtResumeProcess.Call *)
| EvCloseChan (w : chan_ref)            (* close(ch) *)
| EvStdinWrite (data : string).         (* stdin.Write(data) *)

(** The answers of the environment during one method call.  An absent error
    number means success. *)
Record OS : Type := {
  os_pipe : pipe_ref -> option Z;      (* error of creating a pipe *)
  os_start : Z + Z;                     (* cmd.Start(): pid or error *)
  os_signal : Signal -> option Z;      (* error of Process.Signal *)
  os_kill : option Z;                   (* error of Process.Kill *)
  os_wait : OsProcessState + Z;         (* Process.Wait(): state or error *)
  os_exit_delay : option Duration;      (* when cmd.Wait() returns, if ever *)
  os_tie_done : bool;                   (* select when both cases are ready *)
  os_ctx_done : bool;                   (* the cancellation token fires *)
  os_open_process : Access -> option Z; (* error of windows.OpenProcess *)
  os_terminate : option Z;              (* error of TerminateProcess *)
  os_nt_suspend : Z;                    (* r1 of NtSuspendProcess *)
  os_nt_resume : Z;                     (* r1 of NtResumeProcess *)
  os_stdin_write : option Z             (* error of stdin.Write *)
}.

(** ** The monad of the methods *)

Inductive result (A : Type) : Type :=
| Ret (a : A)
| Panic (why : string).
Arguments Ret {A} a.
Arguments Panic {A} why.

Record Out (A : Type) : Type := mkOut {
  res : result A;          (* what the call returned *)
  st : Process;           (* the struct afterwards *)
  evs : list event         (* the requests made, in order *)
}.
Arguments mkOut {A} res st evs.
Arguments res {A} o.
Arguments st {A} o.
Arguments evs {A} o.

Definition M (A : Type) : Type := OS -> Process -> Out A.

Definition ret {A : Type} (a : A) : M A := fun _ p => mkOut (Ret a) p [].

Definition bind {A B : Type} (m : M A) (f : A -> M B) : M B :=
  fun os p =>
    match m os p with
    | mkOut (Ret a) p1 e1 =>
        match f a os p1 with
        | mkOut r p2 e2 => mkOut r p2 (e1 ++ e2)
        end
    | mkOut (Panic w) p1 e1 => mkOut (Panic w) p1 e1
    end.

Notation "x <- c1 ;; c2" := (bind c1 (fun x => c2))
  (at level 61, c1 at next level, right associativity).
Notation "c1 ;; c2" := (bind c1 (fun _ => c2))
  (at level 61, right associativity).

Definition get : M Process := fun _ p => mkOut (Ret p) p [].
Definition ask : M OS := fun os p => mkOut (Ret os) p [].
Definition modify (f : Process -> Process) : M unit :=
  fun _ p => mkOut (Ret tt) (f p) [].
Definition emit (e : event) : M unit := fun _ p => mkOut (Ret tt) p [e].
Definition panic {A : Type} (why : string) : M A :=
  fun _ p => mkOut (Panic why) p [].

Definition nil_deref : string :=
  "invalid memory address or nil pointer dereference".

(** A statement that may return early from the enclosing function. *)
Inductive flow (A : Type) : Type :=
| Return (a : A)
| Next.
Arguments Return {A} a.
Arguments Next {A}.

Definition sys (e : option Z) : option error := option_map Sys_error e.

(** ** The standard library calls the package makes *)

(** [p.cmd.Process]: both pointers are dereferenced by the callers. *)
Definition the_process : M OsProcess :=
  p <- get;;
  match cmd p with
  | None => panic nil_deref
  | Some c =>
      match Cmd_Process c with
      | None => panic nil_deref
      | Some pr => ret pr
      end
  end.

(** [p.cmd.Process.Signal(sig)]. *)
Definition Process_Signal (sig : Signal) : M (option error) :=
  _ <- the_process;;
  emit (EvSignal sig);;
  os <- ask;;
  ret (sys (os_signal os sig)).

(** [p.cmd.Process.Kill()]. *)
Definition Process_Kill : M (option error) :=
  _ <- the_process;;
  emit EvKill;;
  os <- ask;;
  ret (sys (os_kill os)).

(** The [Wait] method of [exec.Cmd] in the Go standard library: it refuses
    a command that was not started or was already waited for, otherwise it
    waits for the process, stores the state it obtained (nil when the wait
    failed) in [ProcessState], and turns an unsuccessful exit into an
    [*ExitError]. *)
Definition Cmd_Wait (os : OS) (c : Cmd) : Cmd * option error :=
  match Cmd_Process c with
  | None => (c, Some (New_error "exec: not started"))
  | Some _ =>
      match Cmd_ProcessState c with
      | Some _ => (c, Some (New_error "exec: Wait was already called"))
      | None =>
          match os_wait os with
          | inl s =>
              (set_ProcessState (Some s) c,
               if Success s then None else Some (Exit_error (ExitCode s)))
          | inr e => (set_ProcessState None c, Some (Sys_error e))
          end
      end
  end.

(** [select] between [<-done] (the goroutine's [cmd.Wait()] has returned)
    and [<-time.After(timeout)].  A timer with a negative duration fires at
    once; when both cases are ready the runtime picks one. *)
Definition done_first (os : OS) (timeout : Duration) : bool :=
  match os_exit_delay os with
  | None => false
  | Some d =>
      if d <? Z.max 0 timeout then true
      else if d =? Z.max 0 timeout then os_tie_done os
      else false
  end.

Definition select_done (timeout : Duration) : M bool :=
  emit (EvTimeAfter timeout);;
  os <- ask;;
  ret (done_first os timeout).

(** The sink once it has been closed. *)
Definition close_stdin (w : option WriteCloser) : option WriteCloser :=
  match w with
  | Some _ => Some {| wc_closed := true |}
  | None => None
  end.

(** Whether [cmd.Wait()] gets to wait: it returns early on a command that
    was not started or was already waited for.  When it waits it also
    releases the pipes of the command, among them the write end that
    [p.stdin] refers to, whatever the outcome of the wait. *)
Definition Cmd_Wait_closes (c : Cmd) : bool :=
  match Cmd_Process c, Cmd_ProcessState c with
  | Some _, None => true
  | _, _ => false
  end.

(** The handle once [cmd.Wait()] has returned on its command [c]: the
    command holds the state, and the stdin sink is closed if the call got
    to wait. *)
Definition after_cmd_wait (os : OS) (c : Cmd) (p : Process) : Process :=
  set_cmd (Some (fst (Cmd_Wait os c)))
    (if Cmd_Wait_closes c then set_stdin (close_stdin (stdin p)) p else p).

(** The effect on the handle of the goroutine [done <- p.cmd.Wait()] once
    the [select] has taken its value.  When the timer is taken instead the
    goroutine is left out of the call, also in a tie, where its wait has
    returned already. *)
Definition cmd_wait_done : M unit :=
  p <- get;;
  os <- ask;;
  match cmd p with
  | None => panic nil_deref
  | Some c => modify (after_cmd_wait os c)
  end.

(** [close(ch)]: closing a closed channel panics. *)
Definition close (w : chan_ref) : M unit :=
  p <- get;;
  if chan_closed (chan_of w p) then panic "close of closed channel"
  else
    emit (EvCloseChan w);;
    modify (set_chan w {| chan_cap := chan_cap (chan_of w p);
                          chan_closed := true |}).

(** ** process.go *)

(** The struct literal of [NewWithBuffer]. *)
Definition fresh (size : Z) (prog : string) (a : list string) : Process :=
  {| program := prog; args := a; cmd := None;
     stdout := make_chan size; stderr := make_chan size;
     stdin := None; paused := false; running := false;
     bufferSize := size; channelsClosed := false |}.

(** [make(chan string, n)] panics on a negative size. *)
Definition NewWithBuffer (size : Z) (prog : string) (a : list string)
  : result Process :=
  if size <? 0 then Panic "makechan: size out of range"
  else Ret (fresh size prog a).

Definition New (prog : string) (a : list string) : result Process :=
  NewWithBuffer 0 prog a.

Definition run_result : Type :=
  (option chan_ref * option chan_ref * option error)%type.

Definition RunWithContext (ctx : Context) : M run_result :=
  p <- get;;
  if running p then ret (None, None, Some errAlreadyRunning)
  else
    modify (set_cmd (Some (CommandContext ctx (program p) (args p))));;
    os <- ask;;
    emit (EvPipe StdoutPipe);;
    match os_pipe os StdoutPipe with
    | Some e =>
        ret (None, None,
             Some (Wrap_error "failed to create stdout pipe" (Sys_error e)))
    | None =>
        emit (EvPipe StderrPipe);;
        match os_pipe os StderrPipe with
        | Some e =>
            emit (EvPipeClose StdoutPipe);;
            ret (None, None,
                 Some (Wrap_error "failed to create stderr pipe"
                                  (Sys_error e)))
        | None =>
            emit (EvPipe StdinPipe);;
            match os_pipe os StdinPipe with
            | Some e =>
                emit (EvPipeClose StdoutPipe);;
                emit (EvPipeClose StderrPipe);;
                ret (None, None,
                     Some (Wrap_error "failed to create stdin pipe"
                                      (Sys_error e)))
            | None =>
                modify (set_stdin (Some {| wc_closed := false |}));;
                emit EvStart;;
                match os_start os with
                | inr e =>
                    emit (EvPipeClose StdoutPipe);;
                    emit (EvPipeClose StderrPipe);;
                    emit (EvPipeClose StdinPipe);;
                    modify (set_stdin (Some {| wc_closed := true |}));;
                    ret (None, None,
                         Some (Wrap_error "failed to start process"
                                          (Sys_error e)))
                | inl pid =>
                    modify (fun q =>
                      set_cmd (option_map (set_Process (Some {| Pid := pid |}))
                                          (cmd q)) q);;
                    modify (set_running true);;
                    emit (EvGo (GoStream Stdout));;
                    emit (EvGo (GoStream Stderr));;
                    emit (EvGo GoWatcher);;
                    ret (Some Stdout, Some Stderr, None)
                end
            end
        end
    end.

Definition Run : M run_result := RunWithContext Background.

(** [RunWithContext] on a context that may be nil: the guard on [running]
    comes first, then [exec.CommandContext] panics on a nil context, before
    anything is assigned. *)
Definition RunWithContext_nilable (ctx : option Context) : M run_result :=
  match ctx with
  | Some c => RunWithContext c
  | None =>
      p <- get;;
      if running p then ret (None, None, Some errAlreadyRunning)
      else panic "nil Context"
  end.

Definition closeChannels : M unit :=
  p <- get;;
  if negb (channelsClosed p) then
    close Stdout;;
    close Stderr;;
    modify (set_channelsClosed true)
  else ret tt.

(** The deferred function of the completion watcher: the part under the
    lock, then [closeChannels]. *)
Definition watcher_locked : M unit :=
  modify (set_running false);;
  modify (set_paused false);;
  p <- get;;
  match stdin p with
  | Some _ =>
      emit (EvPipeClose StdinPipe);;
      modify (set_stdin (Some {| wc_closed := true |}))
  | None => ret tt
  end.

Definition watcher_cleanup : M unit :=
  watcher_locked;;
  closeChannels.

(** Whether the context of the handle's current command has fired.  The
    watcher's closure keeps the context of its own [RunWithContext] call;
    the two are the same until the handle is started again. *)
Definition ctx_fires (os : OS) (p : Process) : bool :=
  match cmd p with
  | Some c =>
      match cmd_ctx c with
      | Background => false
      | Cancellable => os_ctx_done os
      end
  | None => false
  end.

(** The steps of the completion watcher on the path on which it finishes:
    both streamers are done, or the context fires, the process is killed
    (error ignored) and the streamers are done later; then the deferred
    cleanup runs.  The wait for the streamers itself is in [watcher_of]. *)
Definition watcher : M unit :=
  p <- get;;
  os <- ask;;
  (if ctx_fires os p then _ <- Process_Kill;; ret tt else ret tt);;
  watcher_cleanup.

(** The completion watcher as the closure of one [RunWithContext] call runs
    it.  [ctx] is the context of that call; [drained] tells whether both
    line streamers finish, which they do once the process has closed its
    output and every line has been taken off the queues.  The watcher waits
    for the streamers or for the context; when the context fires first it
    kills the process (error ignored) and then waits for the streamers all
    the same.  The deferred cleanup runs only when the streamers have
    finished; otherwise the watcher stays blocked, which the result [false]
    stands for. *)
Definition watcher_of (ctx : Context) (drained : bool) : M bool :=
  os <- ask;;
  (if match ctx with
      | Background => false
      | Cancellable => os_ctx_done os
      end
   then _ <- Process_Kill;; ret tt
   else ret tt);;
  if drained then watcher_cleanup;; ret true else ret false.

Definition IsRunning : M bool := p <- get;; ret (running p).

Definition IsPaused : M bool := p <- get;; ret (paused p).

Definition PID : M Z :=
  p <- get;;
  match cmd p with
  | None => panic nil_deref
  | Some c =>
      match Cmd_Process c with
      | Some pr => ret (Pid pr)
      | None => ret (-1)
      end
  end.

Definition Write (data : string) : M (option error) :=
  p <- get;;
  if negb (running p) then ret (Some errNotRunning)
  else
    match stdin p with
    | None => ret (Some errStdinUnavailable)
    | Some w =>
        emit (EvStdinWrite data);;
        os <- ask;;
        if wc_closed w then ret (Some errClosed)
        else ret (sys (os_stdin_write os))
    end.

Definition WriteString (s : string) : M (option error) := Write s.

(** [return cmd.ProcessState, cmd.Wait()]: the language fixes the order of
    the calls in a return statement but not the order between a call and a
    field read, so the read of [cmd.ProcessState] may see the field before
    or after [cmd.Wait()] has stored the state.  The gc toolchain performs
    the call first. *)
Inductive eval_order : Type := FieldThenCall | CallThenField.

Definition wait_result : Type :=
  (option OsProcessState * option error)%type.

Definition Wait (ord : eval_order) : M wait_result :=
  p <- get;;
  if negb (running p) then ret (None, Some errNotRunning)
  else
    match cmd p with
    | None => panic nil_deref
    | Some c =>
        os <- ask;;
        emit EvCmdWait;;
        modify (after_cmd_wait os c);;
        ret (match ord with
             | FieldThenCall => Cmd_ProcessState c
             | CallThenField => Cmd_ProcessState (fst (Cmd_Wait os c))
             end,
             snd (Cmd_Wait os c))
    end.

(** ** process_unix.go *)

Module Unix.

Definition Pause : M (option error) :=
  p <- get;;
  if negb (running p) || paused p then ret (Some errPauseState)
  else
    err <- Process_Signal SIGSTOP;;
    match err with
    | Some e => ret (Some (Wrap_error "failed to pause process" e))
    | None => modify (set_paused true);; ret None
    end.

Definition Resume : M (option error) :=
  p <- get;;
  if negb (running p) || negb (paused p) then ret (Some errResumeState)
  else
    err <- Process_Signal SIGCONT;;
    match err with
    | Some e => ret (Some (Wrap_error "failed to resume process" e))
    | None => modify (set_paused false);; ret None
    end.

Definition killWithSignal (timeout : Duration) (graceful : bool)
  : M (option error) :=
  p <- get;;
  if negb (running p) then ret (Some errNotRunning)
  else
    f <- (if graceful then
            (* Try SIGTERM first *)
            err <- Process_Signal SIGTERM;;
            match err with
            | Some e =>
                ret (Return (Some (Wrap_error "failed to send SIGTERM" e)))
            | None =>
                (* Wait for graceful shutdown *)
                emit (EvGo GoCmdWait);;
                d <- select_done timeout;;
                if d then
                  (* Process exited gracefully *)
                  cmd_wait_done;;
                  modify (set_running false);;
                  modify (set_paused false);;
                  ret (Return None)
                else ret Next (* Timeout, force kill *)
            end
          else ret Next);;
    match f with
    | Return e => ret e
    | Next =>
        (* Force kill with SIGKILL *)
        err <- Process_Kill;;
        match err with
        | None =>
            modify (set_running false);;
            modify (set_paused false);;
            ret None
        | Some e => ret (Some e)
        end
    end.

End Unix.

(** ** process_windows.go *)

Module Windows.

Definition Pause : M (option error) :=
  p <- get;;
  if negb (running p) || paused p then ret (Some errPauseState)
  else
    _ <- the_process;;
    emit (EvOpenProcess PROCESS_SUSPEND_RESUME);;
    os <- ask;;
    match os_open_process os PROCESS_SUSPEND_RESUME with
    | Some e =>
        ret (Some (Wrap_error "failed to open process for suspend"
                              (Sys_error e)))
    | None =>
        emit EvNtSuspendProcess;;
        if negb (os_nt_suspend os =? 0) then
          emit EvCloseHandle;;
          ret (Some (Status_error "NtSuspendProcess failed"
                                  (os_nt_suspend os)))
        else
          modify (set_paused true);;
          emit EvCloseHandle;;
          ret None
    end.

Definition Resume : M (option error) :=
  p <- get;;
  if negb (running p) || negb (paused p) then ret (Some errResumeState)
  else
    _ <- the_process;;
    emit (EvOpenProcess PROCESS_SUSPEND_RESUME);;
    os <- ask;;
    match os_open_process os PROCESS_SUSPEND_RESUME with
    | Some e =>
        ret (Some (Wrap_error "failed to open process for resume"
                              (Sys_error e)))
    | None =>
        emit EvNtResumeProcess;;
        if negb (os_nt_resume os =? 0) then
          emit EvCloseHandle;;
          ret (Some (Status_error "NtResumeProcess failed"
                                  (os_nt_resume os)))
        else
          modify (set_paused false);;
          emit EvCloseHandle;;
          ret None
    end.

Definition killWithSignal (timeout : Duration) (graceful : bool)
  : M (option error) :=
  p <- get;;
  if negb (running p) then ret (Some errNotRunning)
  else
    f <- (if graceful then
            emit (EvGo GoCmdWait);;
            (* First, try to close the process gracefully *)
            _ <- the_process;;
            emit (EvOpenProcess PROCESS_TERMINATE);;
            os <- ask;;
            (match os_open_process os PROCESS_TERMINATE with
             | None =>
                 emit (EvTerminateProcess 1);; (* error ignored *)
                 emit EvCloseHandle           (* error ignored *)
             | Some _ => ret tt
             end);;
            d <- select_done timeout;;
            if d then
              (* Process exited gracefully *)
              cmd_wait_done;;
              modify (set_running false);;
              modify (set_paused false);;
              ret (Return None)
            else ret Next (* Timeout, force kill *)
          else ret Next);;
    match f with
    | Return e => ret e
    | Next =>
        (* Force kill *)
        err <- Process_Kill;;
        match err with
        | None =>
            modify (set_running false);;
            modify (set_paused false);;
            ret None
        | Some e => ret (Some e)
        end
    end.

End Windows.

(** ** The build selects one back end *)

Inductive GOOS : Type := unix | windows.

Definition Pause (goos : GOOS) : M (option error) :=
  match goos with unix => Unix.Pause | windows => Windows.Pause end.

Definition Resume (goos : GOOS) : M (option error) :=
  match goos with unix => Unix.Resume | windows => Windows.Resume end.

Definition killWithSignal (goos : GOOS) (timeout : Duration)
  (graceful : bool) : M (option error) :=
  match goos with
  | unix => Unix.killWithSignal timeout graceful
  | windows => Windows.killWithSignal timeout graceful
  end.

(** The three termination methods of [process.go]. *)
Definition Kill (goos : GOOS) : M (option error) :=
  killWithSignal goos defaultKillTimeout true.

Definition KillWithTimeout (goos : GOOS) (timeout : Duration)
  : M (option error) :=
  killWithSignal goos timeout false.

Definition Terminate (goos : GOOS) : M (option error) :=
  killWithSignal goos defaultKillTimeout true.

(** The gentle stop request of each platform, as it shows in the log. *)
Definition gentle_stop (goos : GOOS) : event :=
  match goos with
  | unix => EvSignal SIGTERM
  | windows => EvOpenProcess PROCESS_TERMINATE
  end.

Definition is_gentle (e : event) : bool :=
  match e with
  | EvSignal SIGTERM => true
  | EvOpenProcess PROCESS_TERMINATE => true
  | EvTerminateProcess _ => true
  | _ => false
  end.

Definition is_kill (e : event) : bool :=
  match e with EvKill => true | _ => false end.

Definition is_close (w : chan_ref) (e : event) : bool :=
  match e, w with
  | EvCloseChan Stdout, Stdout => true
  | EvCloseChan Stderr, Stderr => true
  | _, _ => false
  end.

Definition is_start (e : event) : bool :=
  match e with EvStart => true | _ => false end.

(** ** Histories of calls on one handle *)

Inductive op : Type :=
| OpRunWithContext (ctx : Context)
| OpPause
| OpResume
| OpKill
| OpKillWithTimeout (timeout : Duration)
| OpTerminate
| OpWait (ord : eval_order)
| OpIsRunning
| OpIsPaused
| OpPID
| OpWrite (data : string)
| OpWatcher            (* the completion watcher runs to its end *)
| OpWatcherLocked      (* only its critical section *)
| OpCloseChannels.     (* only its closeChannels *)

(** What a call returned. *)
Inductive value : Type :=
| VErr (e : option error)
| VBool (b : bool)
| VInt (z : Z)
| VRun (r : run_result)
| VWait (r : wait_result)
| VUnit.

Definition fmap {A B : Type} (f : A -> B) (m : M A) : M B :=
  a <- m;; ret (f a).

Definition exec (goos : GOOS) (o : op) : M value :=
  match o with
  | OpRunWithContext ctx => fmap VRun (RunWithContext ctx)
  | OpPause => fmap VErr (Pause goos)
  | OpResume => fmap VErr (Resume goos)
  | OpKill => fmap VErr (Kill goos)
  | OpKillWithTimeout t => fmap VErr (KillWithTimeout goos t)
  | OpTerminate => fmap VErr (Terminate goos)
  | OpWait ord => fmap VWait (Wait ord)
  | OpIsRunning => fmap VBool IsRunning
  | OpIsPaused => fmap VBool IsPaused
  | OpPID => fmap VInt PID
  | OpWrite d => fmap VErr (Write d)
  | OpWatcher => fmap (fun _ => VUnit) watcher
  | OpWatcherLocked => fmap (fun _ => VUnit) watcher_locked
  | OpCloseChannels => fmap (fun _ => VUnit) closeChannels
  end.

(** A history: each call with the answers the environment gives during it.
    The run stops at the first panic. *)
Record Lifetime : Type := mkRun {
  final : Process;                  (* the struct after the last call *)
  log : list event;                 (* all requests, in order *)
  returned : list (op * value);     (* the calls that returned *)
  crashed : bool                    (* a call panicked *)
}.

Fixpoint run_ops (goos : GOOS) (h : list (op * OS)) (p : Process) : Lifetime :=
  match h with
  | [] => mkRun p [] [] false
  | (o, os) :: h' =>
      let out := exec goos o os p in
      match res out with
      | Panic _ => mkRun (st out) (evs out) [] true
      | Ret v =>
          let r := run_ops goos h' (st out) in
          mkRun (final r) (evs out ++ log r) ((o, v) :: returned r)
                (crashed r)
      end
  end.

Definition count (f : event -> bool) (l : list event) : nat :=
  List.length (filter f l).

(** ** Predicates on handles and logs *)

(** [p.cmd.Process] is bound. *)
Definition bound (p : Process) : bool :=
  match cmd p with
  | Some c =>
      match Cmd_Process c with
      | Some _ => true
      | None => false
      end
  | None => false
  end.

(** The channels are closed exactly when [channelsClosed] says so. *)
Definition chans_agree (p : Process) : Prop :=
  chan_closed (stdout p) = channelsClosed p /\
  chan_closed (stderr p) = channelsClosed p.

(** The state invariant of a handle. *)
Definition wf (p : Process) : Prop :=
  (paused p = true -> running p = true) /\
  (running p = true -> bound p = true) /\
  chans_agree p.

(** How many closes a step or a history adds, from the flag before and
    after. *)
Definition once (before after : bool) : nat :=
  if before then 0%nat else if after then 1%nat else 0%nat.

(** A call of [Pause] that returned nil. *)
Definition pause_succeeded (c : op * value) : bool :=
  match c with
  | (OpPause, VErr None) => true
  | _ => false
  end.

(** The handle with both queues closed and the closure recorded. *)
Definition closed (p : Process) : Process :=
  set_channelsClosed true
    (set_chan Stderr {| chan_cap := chan_cap (stderr p);
                        chan_closed := true |}
       (set_chan Stdout {| chan_cap := chan_cap (stdout p);
                           chan_closed := true |} p)).

(** The terminal cleanup invoked [n] times in a row. *)
Fixpoint cleanup_times (n : nat) : M unit :=
  match n with
  | O => ret tt
  | S n' => watcher_cleanup;; cleanup_times n'
  end.

(** ** Sample environments and handles *)

(** Every request succeeds; the process exits with code 0 one millisecond
    after it is asked to. *)
Definition os_ok : OS :=
  {| os_pipe := fun _ => None;
     os_start := inl 4242;
     os_signal := fun _ => None;
     os_kill := None;
     os_wait := inl {| ps_pid := 4242; ExitCode := 0 |};
     os_exit_delay := Some Millisecond;
     os_tie_done := true;
     os_ctx_done := false;
     os_open_process := fun _ => None;
     os_terminate := None;
     os_nt_suspend := 0;
     os_nt_resume := 0;
     os_stdin_write := None |}.

(** As [os_ok], but waiting for the process fails (ECHILD). *)
Definition os_wait_fails : OS :=
  {| os_pipe := fun _ => None;
     os_start := inl 4242;
     os_signal := fun _ => None;
     os_kill := None;
     os_wait := inr 10;
     os_exit_delay := Some Millisecond;
     os_tie_done := true;
     os_ctx_done := false;
     os_open_process := fun _ => None;
     os_terminate := None;
     os_nt_suspend := 0;
     os_nt_resume := 0;
     os_stdin_write := None |}.

(** As [os_ok], but the process can be neither signalled, opened nor
    killed (EPERM, ERROR_ACCESS_DENIED) and outlives every timeout. *)
Definition os_denied : OS :=
  {| os_pipe := fun _ => None;
     os_start := inl 4242;
     os_signal := fun _ => Some 1;
     os_kill := Some 1;
     os_wait := inl {| ps_pid := 4242; ExitCode := 0 |};
     os_exit_delay := None;
     os_tie_done := true;
     os_ctx_done := false;
     os_open_process := fun _ => Some 5;
     os_terminate := Some 5;
     os_nt_suspend := 0;
     os_nt_resume := 0;
     os_stdin_write := None |}.



(** [New("echo", "hello")], and the same handle after [Run()]. *)
Definition idle : Process := fresh 0 "echo" ["hello"].

Definition started : Process := st (Run os_ok idle).

(** The handle after [Run()] and the completion watcher's cleanup. *)
Definition exited : Process :=
  final (run_ops unix [(OpRunWithContext Background, os_ok);
                       (OpWatcher, os_ok)] idle).

(** The first request of a log that asks the process to stop, gently or by
    force. *)
Definition first_stop_request (l : list event) : option event :=
  hd_error (filter (fun e => is_gentle e || is_kill e) l).

(** The termination contract in the words of the specification:
    [kill()] is [killWithTimeout(defaultTimeout = 5s, graceful = true)]. *)
Definition spec_kill (goos : GOOS) : M (option error) :=
  killWithSignal goos 5000000000 true.

(** ** The back end files that process.go does not call *)

(** The second Unix back end: the signal primitives without lock, guard or
    flag update. *)
Module UnixImpl.

Definition pauseUnix : M (option error) :=
  err <- Process_Signal SIGSTOP;;
  match err with
  | Some e => ret (Some (Wrap_error "failed to pause process" e))
  | None => ret None
  end.

Definition pauseImpl : M (option error) := pauseUnix.

Definition resumeUnix : M (option error) :=
  err <- Process_Signal SIGCONT;;
  match err with
  | Some e => ret (Some (Wrap_error "failed to resume process" e))
  | None => ret None
  end.

Definition resumeImpl : M (option error) := resumeUnix.

Definition killWithSignalUnix (timeout : Duration) (graceful : bool)
  : M (option error) :=
  f <- (if graceful then
          (* Try SIGTERM first *)
          err <- Process_Signal SIGTERM;;
          match err with
          | Some e =>
              ret (Return (Some (Wrap_error "failed to send SIGTERM" e)))
          | None =>
              (* Wait for graceful shutdown *)
              emit (EvGo GoCmdWait);;
              d <- select_done timeout;;
              if d then
                (* Process exited gracefully *)
                cmd_wait_done;;
                ret (Return None)
              else ret Next (* Timeout, force kill *)
          end
        else ret Next);;
  match f with
  | Return e => ret e
  | Next => Process_Kill (* Force kill with SIGKILL *)
  end.

Definition killWithSignalImpl (timeout : Duration) (graceful : bool)
  : M (option error) :=
  killWithSignalUnix timeout graceful.

End UnixImpl.

(** The second Windows back end. *)
Module WindowsImpl.

Definition pauseWindows : M (option error) :=
  _ <- the_process;;
  emit (EvOpenProcess PROCESS_SUSPEND_RESUME);;
  os <- ask;;
  match os_open_process os PROCESS_SUSPEND_RESUME with
  | Some e =>
      ret (Some (Wrap_error "failed to open process for suspend"
                            (Sys_error e)))
  | None =>
      emit EvNtSuspendProcess;;
      if negb (os_nt_suspend os =? 0) then
        emit EvCloseHandle;;
        ret (Some (Status_error "NtSuspendProcess failed"
                                (os_nt_suspend os)))
      else
        emit EvCloseHandle;;
        ret None
  end.

Definition pauseImpl : M (option error) := pauseWindows.

Definition resumeWindows : M (option error) :=
  _ <- the_process;;
  emit (EvOpenProcess PROCESS_SUSPEND_RESUME);;
  os <- ask;;
  match os_open_process os PROCESS_SUSPEND_RESUME with
  | Some e =>
      ret (Some (Wrap_error "failed to open process for resume"
                            (Sys_error e)))
  | None =>
      emit EvNtResumeProcess;;
      if negb (os_nt_resume os =? 0) then
        emit EvCloseHandle;;
        ret (Some (Status_error "NtResumeProcess failed"
                                (os_nt_resume os)))
      else
        emit EvCloseHandle;;
        ret None
  end.

Definition resumeImpl : M (option error) := resumeWindows.

Definition killWithSignalWindows (timeout : Duration) (graceful : bool)
  : M (option error) :=
  f <- (if graceful then
          emit (EvGo GoCmdWait);;
          (* First, try to close the process gracefully *)
          _ <- the_process;;
          emit (EvOpenProcess PROCESS_TERMINATE);;
          os <- ask;;
          (match os_open_process os PROCESS_TERMINATE with
           | None =>
               emit (EvTerminateProcess 1);; (* error ignored *)
               emit EvCloseHandle           (* error ignored *)
           | Some _ => ret tt
           end);;
          d <- select_done timeout;;
          if d then
            (* Process exited gracefully *)
            cmd_wait_done;;
            ret (Return None)
          else ret Next (* Timeout, force kill *)
        else ret Next);;
  match f with
  | Return e => ret e
  | Next => Process_Kill (* Force kill *)
  end.

Definition killWithSignalImpl (timeout : Duration) (graceful : bool)
  : M (option error) :=
  killWithSignalWindows timeout graceful.

End WindowsImpl.

Definition pauseImpl (goos : GOOS) : M (option error) :=
  match goos with
  | unix => UnixImpl.pauseImpl
  | windows => WindowsImpl.pauseImpl
  end.

Definition resumeImpl (goos : GOOS) : M (option error) :=
  match goos with
  | unix => UnixImpl.resumeImpl
  | windows => WindowsImpl.resumeImpl
  end.

Definition killWithSignalImpl (goos : GOOS) (timeout : Duration)
  (graceful : bool) : M (option error) :=
  match goos with
  | unix => UnixImpl.killWithSignalImpl timeout graceful
  | windows => WindowsImpl.killWithSignalImpl timeout graceful
  end.

(** The locked methods written over the primitives: the guard, the
    primitive, and the flag update when the primitive returned nil. *)
Definition Pause_over_Impl (goos : GOOS) : M (option error) :=
  p <- get;;
  if negb (running p) || paused p then ret (Some errPauseState)
  else
    err <- pauseImpl goos;;
    match err with
    | Some e => ret (Some e)
    | None => modify (set_paused true);; ret None
    end.

Definition Resume_over_Impl (goos : GOOS) : M (option error) :=
  p <- get;;
  if negb (running p) || negb (paused p) then ret (Some errResumeState)
  else
    err <- resumeImpl goos;;
    match err with
    | Some e => ret (Some e)
    | None => modify (set_paused false);; ret None
    end.

Definition killWithSignal_over_Impl (goos : GOOS) (timeout : Duration)
  (graceful : bool) : M (option error) :=
  p <- get;;
  if negb (running p) then ret (Some errNotRunning)
  else
    err <- killWithSignalImpl goos timeout graceful;;
    match err with
    | Some e => ret (Some e)
    | None =>
        modify (set_running false);;
        modify (set_paused false);;
        ret None
    end.

(** ** The line streamer *)

(** [streamOutput]: [lines] are the tokens the scanner yields, in order;
    each is sent on the queue, and a send on a closed channel panics.  The
    result is the list of lines delivered; the completion signal to the
    wait group is not part of the model. *)
Fixpoint streamOutput (lines : list string) (ch : chan)
  : result (list string) :=
  match lines with
  | [] => Ret []
  | l :: rest =>
      if chan_closed ch then Panic "send on closed channel"
      else
        match streamOutput rest ch with
        | Ret sent => Ret (l :: sent)
        | Panic w => Panic w
        end
  end.

(** ** More predicates on logs and histories *)

Definition is_go (e : event) : bool :=
  match e with EvGo _ => true | _ => false end.

Definition is_open (e : event) : bool :=
  match e with EvOpenProcess _ => true | _ => false end.

Definition is_close_handle (e : event) : bool :=
  match e with EvCloseHandle => true | _ => false end.

(** A call of [RunWithContext]. *)
Definition is_run (o : op) : bool :=
  match o with OpRunWithContext _ => true | _ => false end.

Definition run_called (c : op * value) : bool := is_run (fst c).

(** The steps that dereference [p.cmd] without a guard on [running]. *)
Definition unguarded (o : op) : bool :=
  match o with OpPID | OpWatcher => true | _ => false end.

(** The handle has a stdin sink, open or closed. *)
Definition stdin_present (p : Process) : bool :=
  match stdin p with
  | Some _ => true
  | None => false
  end.

(** As [os_ok], but the process cannot be signalled (ESRCH); it still exits
    within a millisecond. *)
Definition os_signal_fails : OS :=
  {| os_pipe := fun _ => None;
     os_start := inl 4242;
     os_signal := fun _ => Some 3;
     os_kill := None;
     os_wait := inl {| ps_pid := 4242; ExitCode := 0 |};
     os_exit_delay := Some Millisecond;
     os_tie_done := true;
     os_ctx_done := false;
     os_open_process := fun _ => None;
     os_terminate := None;
     os_nt_suspend := 0;
     os_nt_resume := 0;
     os_stdin_write := None |}.

(** As [os_ok], but the spawn fails (ENOENT). *)
Definition os_spawn_fails : OS :=
  {| os_pipe := fun _ => None;
     os_start := inr 2;
     os_signal := fun _ => None;
     os_kill := None;
     os_wait := inl {| ps_pid := 4242; ExitCode := 0 |};
     os_exit_delay := Some Millisecond;
     os_tie_done := true;
     os_ctx_done := false;
     os_open_process := fun _ => None;
     os_terminate := None;
     os_nt_suspend := 0;
     os_nt_resume := 0;
     os_stdin_write := None |}.

(** As [os_ok], but the process ignores the gentle stop and never exits on
    its own; the cancellation token has fired. *)
Definition os_stubborn : OS :=
  {| os_pipe := fun _ => None;
     os_start := inl 4242;
     os_signal := fun _ => None;
     os_kill := None;
     os_wait := inl {| ps_pid := 4242; ExitCode := (-1) |};
     os_exit_delay := None;
     os_tie_done := true;
     os_ctx_done := true;
     os_open_process := fun _ => None;
     os_terminate := None;
     os_nt_suspend := 0;
     os_nt_resume := 0;
     os_stdin_write := None |}.

(** The idle handle started with a cancellable context. *)
Definition started_ctx : Process :=
  st (RunWithContext Cancellable os_ok idle).

(** The suspend, resume and gentle stop primitives report success. *)
Definition suspend_ok (goos : GOOS) (os : OS) : bool :=
  match goos with
  | unix =>
      match os_signal os SIGSTOP with None => true | Some _ => false end
  | windows =>
      match os_open_process os PROCESS_SUSPEND_RESUME with
      | None => os_nt_suspend os =? 0
      | Some _ => false
      end
  end.

Definition resume_ok (goos : GOOS) (os : OS) : bool :=
  match goos with
  | unix =>
      match os_signal os SIGCONT with None => true | Some _ => false end
  | windows =>
      match os_open_process os PROCESS_SUSPEND_RESUME with
      | None => os_nt_resume os =? 0
      | Some _ => false
      end
  end.

(** The gentle stop lets the algorithm go on to the race: on POSIX the
    signal must have been sent, on Windows the outcome is not looked at. *)
Definition gentle_passed (goos : GOOS) (os : OS) : bool :=
  match goos with
  | unix =>
      match os_signal os SIGTERM with None => true | Some _ => false end
  | windows => true
  end.

Definition kill_ok (os : OS) : bool :=
  match os_kill os with None => true | Some _ => false end.

(** The methods that may ask for a forceful kill. *)
Definition may_kill (o : op) : bool :=
  match o with
  | OpKill | OpKillWithTimeout _ | OpTerminate | OpWatcher => true
  | _ => false
  end.

(** The methods that ask the process to stop gently. *)
Definition may_stop_gently (o : op) : bool :=
  match o with OpKill | OpTerminate => true | _ => false end.

(** The steps that close queues or the stdin sink. *)
Definition may_close (o : op) : bool :=
  match o with
  | OpWatcher | OpWatcherLocked | OpCloseChannels => true
  | _ => false
  end.

Definition is_suspend_resume (e : event) : bool :=
  match e with
  | EvSignal SIGSTOP | EvSignal SIGCONT
  | EvNtSuspendProcess | EvNtResumeProcess => true
  | _ => false
  end.

(** ** Proof automation *)

Ltac unfold_m :=
  cbv beta iota zeta delta
    [exec fmap Pause Resume Kill KillWithTimeout Terminate killWithSignal
     Unix.Pause Unix.Resume Unix.killWithSignal
     Windows.Pause Windows.Resume Windows.killWithSignal
     RunWithContext closeChannels watcher watcher_cleanup watcher_locked
     IsRunning IsPaused PID Write Wait
     Process_Signal Process_Kill the_process select_done cmd_wait_done close
     after_cmd_wait Cmd_Wait_closes close_stdin
     ctx_fires bound chan_of sys option_map
     bind ret get ask modify emit panic
     set_cmd set_stdin set_paused set_running set_channelsClosed set_chan
     res st evs
     program args cmd stdout stderr stdin paused running bufferSize
     channelsClosed chan_closed chan_cap negb orb andb app].

Ltac case_step :=
  match goal with
  | |- context [match ?x with _ => _ end] =>
      lazymatch x with
      | context [match _ with _ => _ end] => fail
      | _ => destruct x eqn:?
      end
  end.

Ltac crush_m :=
  unfold_m; repeat (case_step; unfold_m);
  repeat split; intros; try discriminate; try congruence; auto.

Ltac unfold_c := unfold_m; cbn [Cmd_Process Cmd_ProcessState cmd_ctx].

Ltac crush_c :=
  unfold_c; repeat (case_step; unfold_c);
  repeat split; intros; try discriminate; try congruence; auto.

Ltac unfold_x :=
  unfold_c; cbv beta iota zeta delta [wc_closed CommandContext set_Process];
  unfold_c.

Ltac crush_x :=
  unfold_x; repeat (case_step; unfold_x);
  repeat split; intros; try discriminate; try congruence; auto.

(** ** Step lemmas *)

Lemma Cmd_Wait_Process (os : OS) (c : Cmd) :
  Cmd_Process (fst (Cmd_Wait os c)) = Cmd_Process c.
Proof.
  unfold Cmd_Wait.
  destruct (Cmd_Process c) eqn:E; [|exact E].
  destruct (Cmd_ProcessState c); [exact E|].
  destruct (os_wait os); exact E.
Qed.

Lemma count_app (f : event -> bool) (l1 l2 : list event) :
  count f (l1 ++ l2) = (count f l1 + count f l2)%nat.
Proof. unfold count. now rewrite filter_app, length_app. Qed.

(** One call [o] on platform [goos] with the environment [os]. *)
Section Step.

Variable goos : GOOS.
Variable o : op.
Variable os : OS.

(** Every call keeps "paused implies running". *)
Lemma exec_paused_running (p : Process) :
  (paused p = true -> running p = true) ->
  paused (st (exec goos o os p)) = true ->
  running (st (exec goos o os p)) = true.
Proof.
  destruct p as [prog a c so se si pa ru bs cc].
  destruct o, goos; crush_m.
Qed.

(** Whenever a call clears [running] it also clears [paused]. *)
Lemma exec_running_drop (p : Process) :
  running p = true ->
  running (st (exec goos o os p)) = false ->
  paused (st (exec goos o os p)) = false.
Proof.
  destruct p as [prog a c so se si pa ru bs cc].
  destruct o, goos; crush_m.
Qed.

(** Only a successful [Pause] sets [paused], and it does so on a handle
    that is running and stays running. *)
Lemma exec_paused_rise (p : Process) :
  paused p = false ->
  paused (st (exec goos o os p)) = true ->
  o = OpPause /\ res (exec goos o os p) = Ret (VErr None) /\
  running p = true /\ running (st (exec goos o os p)) = true.
Proof.
  destruct p as [prog a c so se si pa ru bs cc].
  destruct o, goos; crush_m.
Qed.

(** A running handle has its OS process bound. *)
Lemma exec_bound (p : Process) :
  (running p = true -> bound p = true) ->
  running (st (exec goos o os p)) = true ->
  bound (st (exec goos o os p)) = true.
Proof.
  destruct p as [prog a c so se si pa ru bs cc].
  destruct o, goos; unfold_m; rewrite ?Cmd_Wait_Process;
    repeat (case_step; unfold_m; rewrite ?Cmd_Wait_Process);
    intros; try discriminate; try congruence; auto.
Qed.

(** [channelsClosed] keeps telling the truth about both channels. *)
Lemma exec_chans_agree (p : Process) :
  chans_agree p -> chans_agree (st (exec goos o os p)).
Proof.
  unfold chans_agree.
  destruct p as [prog a c [soc sob] [sec seb] si pa ru bs cc].
  simpl. intros [H1 H2]. subst sob seb.
  destruct o, goos; crush_m.
Qed.

Lemma exec_wf (p : Process) : wf p -> wf (st (exec goos o os p)).
Proof.
  intros (H1 & H2 & H3). repeat split.
  - now apply exec_paused_running.
  - now apply exec_bound.
  - now apply exec_chans_agree.
  - now apply exec_chans_agree.
Qed.

(** A call closes a queue only if it also sets [channelsClosed], and the
    flag is never cleared. *)
Lemma exec_close_count (p : Process) (w : chan_ref) :
  chans_agree p ->
  count (is_close w) (evs (exec goos o os p))
  = once (channelsClosed p) (channelsClosed (st (exec goos o os p))) /\
  (channelsClosed p = true ->
   channelsClosed (st (exec goos o os p)) = true).
Proof.
  unfold chans_agree, once.
  destruct p as [prog a c [soc sob] [sec seb] si pa ru bs cc].
  simpl. intros [H1 H2]. subst sob seb.
  destruct o, goos, w; crush_m.
Qed.

End Step.

(** ** Histories *)

Lemma fresh_wf (size : Z) (prog : string) (a : list string) :
  wf (fresh size prog a).
Proof. repeat split; simpl; intros; congruence. Qed.

Section History.

Variable goos : GOOS.

(** Every state of a history that starts in a well-formed state is
    well-formed; in particular a running handle always has its process
    bound. *)
Lemma run_ops_wf (h : list (op * OS)) :
  forall p, wf p -> wf (final (run_ops goos h p)).
Proof.
  induction h as [|[o os] h IH]; intros p Hp; simpl; [exact Hp|].
  pose proof (exec_wf goos o os p Hp) as Hq.
  destruct (res (exec goos o os p)); simpl; auto.
Qed.

Lemma run_ops_close_count (h : list (op * OS)) (w : chan_ref) :
  forall p, chans_agree p ->
  count (is_close w) (log (run_ops goos h p))
  = once (channelsClosed p) (channelsClosed (final (run_ops goos h p))) /\
  (channelsClosed p = true ->
   channelsClosed (final (run_ops goos h p)) = true).
Proof.
  induction h as [|[o os] h IH]; intros p Hp; simpl.
  - unfold once. destruct (channelsClosed p); auto.
  - destruct (exec_close_count goos o os p w Hp) as [Hc Hm].
    pose proof (exec_chans_agree goos o os p Hp) as Hq.
    destruct (res (exec goos o os p)); simpl; [|auto].
    destruct (IH _ Hq) as [IHc IHm].
    rewrite count_app, Hc, IHc. unfold once in *.
    destruct (channelsClosed p),
      (channelsClosed (st (exec goos o os p))),
      (channelsClosed (final (run_ops goos h (st (exec goos o os p)))));
      simpl; intuition congruence.
Qed.

(** As long as no [Pause] has succeeded the handle is not paused. *)
Lemma run_ops_no_pause (h : list (op * OS)) :
  forall p, paused p = false ->
  existsb pause_succeeded (returned (run_ops goos h p)) = false ->
  paused (final (run_ops goos h p)) = false.
Proof.
  induction h as [|[o os] h IH]; intros p Hp; simpl; [auto|].
  pose proof (exec_paused_rise goos o os p Hp) as Hr.
  destruct (res (exec goos o os p)) as [v|w] eqn:E; simpl.
  - intros Hex. apply orb_false_elim in Hex. destruct Hex as [Hv Hex].
    apply IH; [|exact Hex].
    destruct (paused (st (exec goos o os p))); [|reflexivity].
    destruct (Hr eq_refl) as (-> & Hv' & _).
    injection Hv' as ->. discriminate Hv.
  - intros _. destruct (paused (st (exec goos o os p))); [|reflexivity].
    destruct (Hr eq_refl) as (_ & Hv' & _). discriminate Hv'.
Qed.

End History.

(** ** process.go: queries and waiting *)

Lemma New_idle : New "echo" ["hello"] = Ret idle.
Proof. reflexivity. Qed.

Lemma started_running :
  running started = true /\ paused started = false /\ bound started = true.
Proof. repeat split. Qed.

Lemma exited_not_running :
  running exited = false /\ paused exited = false /\
  channelsClosed exited = true.
Proof. repeat split. Qed.

(** After a successful start, [PID] returns the process id the spawn
    produced. *)
Lemma PID_after_start (ctx : Context) (os os' : OS) (p : Process) (pid : Z) :
  running p = false ->
  (forall w, os_pipe os w = None) ->
  os_start os = inl pid ->
  res (PID os' (st (RunWithContext ctx os p))) = Ret pid.
Proof.
  destruct p as [prog a c so se si pa ru bs cc]. simpl.
  intros -> Hp Hs. unfold_m. rewrite !Hp, Hs. reflexivity.
Qed.

(** On a handle whose command exists but has no process (a failed start),
    [PID] returns the sentinel. *)
Lemma PID_sentinel (os : OS) (p : Process) (c : Cmd) :
  cmd p = Some c -> Cmd_Process c = None ->
  PID os p = mkOut (Ret (-1)) p [].
Proof.
  destruct p as [prog a c0 so se si pa ru bs cc]. simpl.
  intros -> H. unfold_m. rewrite H. reflexivity.
Qed.

(** C2: [PID()] on a freshly constructed, never started handle does not
    return the sentinel -1: [p.cmd] is nil until [RunWithContext] creates
    the command, so evaluating [p.cmd.Process] is a nil pointer dereference
    and the call panics. *)
Theorem PID_fresh_panics (size : Z) (prog : string) (a : list string)
  (os : OS) :
  PID os (fresh size prog a) = mkOut (Panic nil_deref) (fresh size prog a) []
  /\ res (PID os idle) <> Ret (-1).
Proof. split; [reflexivity | discriminate]. Qed.

Lemma Cmd_Wait_not_NotRunning (os : OS) (c : Cmd) :
  snd (Cmd_Wait os c) <> Some errNotRunning.
Proof.
  unfold Cmd_Wait, errNotRunning.
  destruct (Cmd_Process c); [|simpl; congruence].
  destruct (Cmd_ProcessState c); [simpl; congruence|].
  destruct (os_wait os) as [s|e]; simpl; [|congruence].
  destruct (Success s); congruence.
Qed.

(** C1 (amended): [Wait()] returns the NotRunning error, with a nil state
    and without any request to the operating system, exactly when
    [running] is false at call time.  On a running handle it calls the
    command's [Wait] once and returns that call's error together with the
    command's [ProcessState] field: read after the call, the state is the
    exit status whenever the underlying wait collected one; when the
    underlying wait itself fails the state is nil. *)
Theorem Wait_contract (ord : eval_order) (os : OS) (p : Process) :
  ((exists s, res (Wait ord os p) = Ret (s, Some errNotRunning))
   <-> running p = false)
  /\ (running p = false ->
      Wait ord os p = mkOut (Ret (None, Some errNotRunning)) p []
      /\ kind_of errNotRunning = NotRunning)
  /\ (forall c, running p = true -> cmd p = Some c ->
      res (Wait ord os p)
      = Ret (match ord with
             | FieldThenCall => Cmd_ProcessState c
             | CallThenField => Cmd_ProcessState (fst (Cmd_Wait os c))
             end, snd (Cmd_Wait os c))
      /\ evs (Wait ord os p) = [EvCmdWait])
  /\ (forall c s, running p = true -> cmd p = Some c ->
      bound p = true -> Cmd_ProcessState c = None -> os_wait os = inl s ->
      res (Wait CallThenField os p)
      = Ret (Some s, if Success s then None
                     else Some (Exit_error (ExitCode s))))
  /\ (forall c e, running p = true -> cmd p = Some c ->
      bound p = true -> Cmd_ProcessState c = None -> os_wait os = inr e ->
      res (Wait ord os p) = Ret (None, Some (Sys_error e))).
Proof.
  destruct p as [prog a c0 so se si pa ru bs cc]. simpl.
  split; [split|split; [|split; [|split]]].
  - intros [s H]. revert H. unfold_m. destruct ru; [|reflexivity].
    destruct c0 as [c|]; unfold_m; [|discriminate].
    intros H. exfalso. apply (Cmd_Wait_not_NotRunning os c). congruence.
  - intros ->. exists None. reflexivity.
  - intros ->. split; reflexivity.
  - intros c -> ->. split; reflexivity.
  - intros c s -> ->. unfold_m. unfold Cmd_Wait.
    destruct (Cmd_Process c); [|discriminate]. intros _ -> ->. reflexivity.
  - intros c e -> ->. unfold_m. unfold Cmd_Wait.
    destruct (Cmd_Process c); [|discriminate]. intros _ Hs ->.
    rewrite Hs. destruct ord; simpl; now rewrite ?Hs.
Qed.

Lemma Wait_contract_witness :
  res (Wait CallThenField os_ok started)
  = Ret (Some {| ps_pid := 4242; ExitCode := 0 |}, None)
  /\ Wait CallThenField os_ok idle
     = mkOut (Ret (None, Some errNotRunning)) idle [].
Proof.
  pose proof (Wait_contract CallThenField os_ok started)
    as (_ & _ & _ & H & _).
  pose proof (Wait_contract CallThenField os_ok idle) as (_ & H0 & _).
  split.
  - apply (H _ _ eq_refl eq_refl eq_refl eq_refl eq_refl).
  - apply (H0 eq_refl).
Defined.

(** C1 as stated fails: on a running handle whose underlying wait fails,
    [Wait()] returns a nil process state, whichever way the return
    statement is evaluated. *)
Lemma Wait_state_may_be_nil :
  running started = true /\
  forall ord, res (Wait ord os_wait_fails started)
              = Ret (None, Some (Sys_error 10)).
Proof. split; [reflexivity | intros []; reflexivity]. Qed.

(** ** Starting a handle *)

(** C4 (amended): a start attempt while [running] is true is rejected with
    the AlreadyRunning error, makes no request to the operating system (so
    no second process is spawned) and leaves every field of the handle
    unchanged.  The guard looks at [running] only: a start attempt with
    [running] false, also after the process has terminated, is never
    rejected as AlreadyRunning, and when the pipes and the spawn succeed it
    starts a process and sets [running]. *)
Theorem RunWithContext_guard (ctx : Context) (os : OS) (p : Process) :
  (running p = true ->
   RunWithContext ctx os p
   = mkOut (Ret (None, None, Some errAlreadyRunning)) p []
   /\ kind_of errAlreadyRunning = AlreadyRunning)
  /\ (running p = false ->
      res (RunWithContext ctx os p) <> Ret (None, None, Some errAlreadyRunning)
      /\ hd_error (evs (RunWithContext ctx os p)) = Some (EvPipe StdoutPipe))
  /\ (forall pid, running p = false ->
      (forall w, os_pipe os w = None) -> os_start os = inl pid ->
      res (RunWithContext ctx os p) = Ret (Some Stdout, Some Stderr, None)
      /\ running (st (RunWithContext ctx os p)) = true
      /\ count is_start (evs (RunWithContext ctx os p)) = 1%nat).
Proof.
  destruct p as [prog a c so se si pa ru bs cc]. simpl.
  split; [|split].
  - intros ->. split; reflexivity.
  - intros ->. crush_m.
  - intros pid -> Hp Hs. unfold_m. rewrite !Hp, Hs. repeat split.
Qed.

Lemma RunWithContext_guard_witness :
  RunWithContext Background os_ok started
  = mkOut (Ret (None, None, Some errAlreadyRunning)) started []
  /\ res (RunWithContext Background os_ok idle)
     = Ret (Some Stdout, Some Stderr, None).
Proof.
  pose proof (RunWithContext_guard Background os_ok started) as (H & _).
  pose proof (RunWithContext_guard Background os_ok idle) as (_ & _ & H0).
  split.
  - apply (H eq_refl).
  - apply (H0 4242 eq_refl (fun _ => eq_refl) eq_refl).
Defined.

(** C4 as stated fails: a handle that was started and whose process has
    terminated accepts a second start, which spawns a second process. *)
Lemma restart_after_exit_accepted :
  running exited = false
  /\ res (RunWithContext Background os_ok exited)
     = Ret (Some Stdout, Some Stderr, None)
  /\ count is_start
       (log (run_ops unix [(OpRunWithContext Background, os_ok);
                           (OpWatcher, os_ok);
                           (OpRunWithContext Background, os_ok)] idle))
     = 2%nat.
Proof. repeat split. Qed.

(** ** Termination *)

(** C3: [KillWithTimeout] is the shared algorithm with [graceful = false]:
    on a running handle its only request is the forceful kill, issued at
    once, and it never sends a gentle stop, starts a wait or arms a timer;
    [Kill] and [Terminate] are the same algorithm with [graceful = true],
    and on a running handle their first stop request is the gentle one. *)
Theorem KillWithTimeout_not_graceful (goos : GOOS) (timeout : Duration)
  (os : OS) (p : Process) :
  KillWithTimeout goos timeout = killWithSignal goos timeout false
  /\ Kill goos = killWithSignal goos defaultKillTimeout true
  /\ Terminate goos = killWithSignal goos defaultKillTimeout true
  /\ evs (KillWithTimeout goos timeout os p)
     = (if running p && bound p then [EvKill] else [])
  /\ count is_gentle (evs (KillWithTimeout goos timeout os p)) = 0%nat
  /\ (running p = true -> bound p = true ->
      first_stop_request (evs (Kill goos os p)) = Some (gentle_stop goos)
      /\ first_stop_request (evs (Terminate goos os p))
         = Some (gentle_stop goos)).
Proof.
  destruct p as [prog a c so se si pa ru bs cc].
  split; [reflexivity|]. split; [reflexivity|]. split; [reflexivity|].
  split; [destruct goos; crush_m|]. split; [destruct goos; crush_m|].
  simpl. intros -> Hb. revert Hb.
  destruct goos; unfold_m;
    (destruct c as [c|]; [|discriminate]);
    (destruct (Cmd_Process c); [|discriminate]); intros _; crush_m.
Qed.

Lemma KillWithTimeout_not_graceful_witness :
  evs (KillWithTimeout unix Second os_ok started) = [EvKill]
  /\ first_stop_request (evs (Kill unix os_ok started))
     = Some (EvSignal SIGTERM).
Proof.
  pose proof (KillWithTimeout_not_graceful unix Second os_ok started)
    as (_ & _ & _ & H1 & _ & H2).
  split; [exact H1 | apply (H2 eq_refl eq_refl)].
Defined.

(** C5: [Kill], [Terminate] and [KillWithTimeout] all invoke the one
    termination algorithm of the platform, [killWithSignal], and differ in
    nothing but the timeout and the graceful flag they pass: [Kill] and
    [Terminate] pass 5 seconds and graceful, hence are equal to each other,
    and [KillWithTimeout] passes its timeout and not graceful.  The
    behaviour shows it: every timer [Kill] arms is one of 5 seconds, it
    arms one whenever the gentle stop lets the algorithm go on, and
    [KillWithTimeout] on a running handle is the forceful kill of the
    algorithm, returning its result and clearing the flags when it
    succeeded. *)
Theorem Kill_Terminate_shared (goos : GOOS) (timeout : Duration) (os : OS)
  (p : Process) :
  Kill goos = killWithSignal goos (5 * Second) true
  /\ Terminate goos = killWithSignal goos (5 * Second) true
  /\ KillWithTimeout goos timeout = killWithSignal goos timeout false
  /\ killWithSignal goos
     = match goos with
       | unix => Unix.killWithSignal
       | windows => Windows.killWithSignal
       end
  /\ Kill goos = spec_kill goos
  /\ Terminate goos = spec_kill goos
  /\ Kill goos = Terminate goos
  /\ defaultKillTimeout = 5000000000
  /\ (forall d, In (EvTimeAfter d) (evs (Kill goos os p)) -> d = 5000000000)
  /\ (running p = true -> bound p = true ->
      (goos = unix -> os_signal os SIGTERM = None) ->
      In (EvTimeAfter 5000000000) (evs (Kill goos os p))
      /\ KillWithTimeout goos timeout os p
         = match os_kill os with
           | None =>
               mkOut (Ret None) (set_paused false (set_running false p))
                     [EvKill]
           | Some e => mkOut (Ret (Some (Sys_error e))) p [EvKill]
           end).
Proof.
  split; [reflexivity|]. split; [reflexivity|]. split; [reflexivity|].
  split; [destruct goos; reflexivity|].
  split; [reflexivity|]. split; [reflexivity|]. split; [reflexivity|].
  split; [reflexivity|].
  destruct p as [prog a [[cx pth ar [pr|] ps]|] so se si pa ru bs cc];
    (split;
     [ intros d; destruct goos; unfold_c; repeat (case_step; unfold_c);
       simpl; intros H;
       repeat (destruct H as [H|H];
               [first [discriminate H | injection H as <-; reflexivity]|]);
       contradiction
     | simpl; intros -> Hb Hs; try discriminate Hb; clear Hb ]).
  destruct goos.
  - specialize (Hs eq_refl). unfold_c. rewrite Hs. unfold_c.
    repeat (case_step; unfold_c); simpl; auto.
  - clear Hs. unfold_c. repeat (case_step; unfold_c); simpl; auto 10.
Qed.

Lemma Kill_Terminate_shared_witness :
  In (EvTimeAfter 5000000000) (evs (Kill unix os_ok started))
  /\ KillWithTimeout windows Millisecond os_denied started
     = mkOut (Ret (Some (Sys_error 1))) started [EvKill].
Proof.
  pose proof (Kill_Terminate_shared unix Millisecond os_ok started)
    as (_ & _ & _ & _ & _ & _ & _ & _ & _ & H1).
  pose proof (Kill_Terminate_shared windows Millisecond os_denied started)
    as (_ & _ & _ & _ & _ & _ & _ & _ & _ & H2).
  split.
  - apply (H1 eq_refl eq_refl (fun _ => eq_refl)).
  - apply H2; [reflexivity | reflexivity | discriminate].
Defined.




Lemma done_first_lt (os : OS) (timeout d : Duration) :
  os_exit_delay os = Some d -> d < timeout -> done_first os timeout = true.
Proof.
  intros H Hlt. unfold done_first. rewrite H.
  destruct (d <? Z.max 0 timeout) eqn:E; [reflexivity|].
  apply Z.ltb_ge in E. lia.
Qed.

(** The gentle stop comes first whatever the timeout and the outcome. *)
Lemma graceful_first_request (goos : GOOS) (timeout : Duration) (os : OS)
  (p : Process) :
  running p = true -> bound p = true ->
  first_stop_request (evs (killWithSignal goos timeout true os p))
  = Some (gentle_stop goos).
Proof.
  destruct p as [prog a [[cx pth ar [pr|] ps]|] so se si pa ru bs cc];
    simpl; intros -> Hb; try discriminate Hb; clear Hb.
  destruct goos; crush_c.
Qed.

(** C7 (amended): the shared algorithm called with [graceful = true] on a
    running handle requests the gentle stop first: on POSIX it sends
    [SIGTERM]; on Windows it opens the process and, if that succeeded, asks
    it to terminate with exit code 1 and closes the handle.  When that
    request did not end the call (on POSIX the signal was sent; on Windows
    its outcome is not looked at) and the process exits before the timeout
    elapses, the call returns success after exactly these requests and the
    timer, never issues the forceful kill, and clears [running] and
    [paused]. *)
Theorem graceful_exit_before_timeout (goos : GOOS) (timeout : Duration)
  (os : OS) (p : Process) :
  running p = true -> bound p = true ->
  first_stop_request (evs (killWithSignal goos timeout true os p))
  = Some (gentle_stop goos)
  /\ (forall e, goos = unix -> os_signal os SIGTERM = Some e ->
      killWithSignal goos timeout true os p
      = mkOut (Ret (Some (Wrap_error "failed to send SIGTERM"
                                     (Sys_error e))))
              p [EvSignal SIGTERM])
  /\ (forall d,
      (goos = unix -> os_signal os SIGTERM = None) ->
      os_exit_delay os = Some d -> d < timeout ->
      res (killWithSignal goos timeout true os p) = Ret None
      /\ running (st (killWithSignal goos timeout true os p)) = false
      /\ paused (st (killWithSignal goos timeout true os p)) = false
      /\ count is_kill (evs (killWithSignal goos timeout true os p)) = 0%nat
      /\ evs (killWithSignal goos timeout true os p)
         = match goos with
           | unix =>
               [EvSignal SIGTERM; EvGo GoCmdWait; EvTimeAfter timeout]
           | windows =>
               match os_open_process os PROCESS_TERMINATE with
               | None =>
                   [EvGo GoCmdWait; EvOpenProcess PROCESS_TERMINATE;
                    EvTerminateProcess 1; EvCloseHandle;
                    EvTimeAfter timeout]
               | Some _ =>
                   [EvGo GoCmdWait; EvOpenProcess PROCESS_TERMINATE;
                    EvTimeAfter timeout]
               end
           end).
Proof.
  intros Hr Hb. split; [now apply graceful_first_request|]. revert Hr Hb.
  destruct p as [prog a [[cx pth ar [pr|] ps]|] so se si pa ru bs cc];
    simpl; intros -> Hb; try discriminate Hb; clear Hb.
  split; [intros e -> Hs; unfold_c; rewrite Hs; reflexivity|].
  intros d Hs Hd Hlt.
  pose proof (done_first_lt os timeout d Hd Hlt) as Hdone.
  destruct goos.
  - specialize (Hs eq_refl). unfold_c. rewrite Hs. unfold_c.
    rewrite Hdone. unfold_c. repeat (case_step; unfold_c); repeat split.
  - clear Hs. unfold_c.
    destruct (os_open_process os PROCESS_TERMINATE); unfold_c;
      rewrite Hdone; unfold_c; repeat (case_step; unfold_c); repeat split.
Qed.

Lemma graceful_exit_before_timeout_witness :
  res (killWithSignal unix defaultKillTimeout true os_ok started) = Ret None
  /\ evs (killWithSignal windows defaultKillTimeout true os_ok started)
     = [EvGo GoCmdWait; EvOpenProcess PROCESS_TERMINATE;
        EvTerminateProcess 1; EvCloseHandle;
        EvTimeAfter defaultKillTimeout]
  /\ first_stop_request
       (evs (killWithSignal unix defaultKillTimeout true os_denied started))
     = Some (EvSignal SIGTERM).
Proof.
  pose proof (graceful_exit_before_timeout unix defaultKillTimeout os_ok
                started eq_refl eq_refl) as (_ & _ & H1).
  pose proof (graceful_exit_before_timeout windows defaultKillTimeout os_ok
                started eq_refl eq_refl) as (_ & _ & H2).
  pose proof (graceful_exit_before_timeout unix defaultKillTimeout os_denied
                started eq_refl eq_refl) as (H3 & _).
  split; [|split].
  - apply (H1 Millisecond (fun _ => eq_refl) eq_refl eq_refl).
  - apply (H2 Millisecond); [discriminate | reflexivity | reflexivity].
  - exact H3.
Defined.

(** C7 as stated fails on POSIX: the process exits well before the timeout
    elapses, but the stop signal cannot be sent, and the call returns that
    error after the one request and leaves [running] true. *)
Lemma graceful_exit_signal_not_sent :
  running started = true
  /\ os_exit_delay os_signal_fails = Some Millisecond
  /\ Millisecond < Second
  /\ killWithSignal unix Second true os_signal_fails started
     = mkOut (Ret (Some (Wrap_error "failed to send SIGTERM"
                                    (Sys_error 3))))
             started [EvSignal SIGTERM]
  /\ res (killWithSignal unix Second true os_signal_fails started)
     <> Ret None
  /\ running (st (killWithSignal unix Second true os_signal_fails started))
     = true.
Proof. repeat split. discriminate. Qed.

(** ** Pause and resume *)

(** C8: [Pause] succeeds only on a handle that is running and not paused,
    and then sets [paused], which [IsPaused] reports; [Resume] succeeds
    only on a handle that is running and paused, and then clears [paused];
    [Resume] on a handle that is not paused, in particular one on which no
    [Pause] has succeeded, fails with the InvalidState error, makes no
    request and changes nothing. *)
Theorem Pause_Resume_contract (goos : GOOS) (os os' : OS) (p : Process) :
  (res (Pause goos os p) = Ret None ->
   running p = true /\ paused p = false
   /\ paused (st (Pause goos os p)) = true
   /\ res (IsPaused os' (st (Pause goos os p))) = Ret true)
  /\ (res (Resume goos os p) = Ret None ->
      running p = true /\ paused p = true
      /\ paused (st (Resume goos os p)) = false
      /\ res (IsPaused os' (st (Resume goos os p))) = Ret false)
  /\ (paused p = false ->
      Resume goos os p = mkOut (Ret (Some errResumeState)) p []
      /\ kind_of errResumeState = InvalidState)
  /\ (forall h size prog a,
      existsb pause_succeeded
        (returned (run_ops goos h (fresh size prog a))) = false ->
      Resume goos os (final (run_ops goos h (fresh size prog a)))
      = mkOut (Ret (Some errResumeState))
              (final (run_ops goos h (fresh size prog a))) []).
Proof.
  assert (Hres : forall q, paused q = false ->
            Resume goos os q = mkOut (Ret (Some errResumeState)) q []).
  { intros [prog a c so se si pa ru bs cc]. simpl. intros ->.
    destruct goos, ru; reflexivity. }
  split; [|split; [|split]].
  - destruct p as [prog a c so se si pa ru bs cc]. destruct goos; crush_m.
  - destruct p as [prog a c so se si pa ru bs cc]. destruct goos; crush_m.
  - intros Hp. split; [now apply Hres | reflexivity].
  - intros h size prog a Hex. apply Hres.
    now apply run_ops_no_pause.
Qed.

Lemma Pause_Resume_contract_witness :
  paused (st (Pause unix os_ok started)) = true
  /\ paused (st (Resume unix os_ok (st (Pause unix os_ok started)))) = false
  /\ Resume unix os_ok started
     = mkOut (Ret (Some errResumeState)) started [].
Proof.
  pose proof (Pause_Resume_contract unix os_ok os_ok started)
    as (H1 & _ & H3 & _).
  pose proof (Pause_Resume_contract unix os_ok os_ok
                (st (Pause unix os_ok started))) as (_ & H2 & _).
  split; [apply (H1 eq_refl)|].
  split; [apply (H2 eq_refl)|].
  apply (H3 eq_refl).
Defined.

(** ** The state invariant over histories *)

(** C9: in every state a freshly constructed handle reaches through calls
    of the public methods and steps of the completion watcher, [paused]
    implies [running]; every step that clears [running] leaves [paused]
    cleared, and a step sets [paused] only on a handle that is running and
    stays running. *)
Theorem paused_implies_running (goos : GOOS) (h : list (op * OS))
  (size : Z) (prog : string) (a : list string) :
  (paused (final (run_ops goos h (fresh size prog a))) = true ->
   running (final (run_ops goos h (fresh size prog a))) = true)
  /\ (forall o os p,
      running p = true -> running (st (exec goos o os p)) = false ->
      paused (st (exec goos o os p)) = false)
  /\ (forall o os p,
      paused p = false -> paused (st (exec goos o os p)) = true ->
      running p = true /\ running (st (exec goos o os p)) = true).
Proof.
  split; [|split].
  - apply (run_ops_wf goos h (fresh size prog a) (fresh_wf size prog a)).
  - intros o os p. apply exec_running_drop.
  - intros o os p Hp Hq.
    destruct (exec_paused_rise goos o os p Hp Hq) as (_ & _ & H1 & H2).
    now split.
Qed.

Lemma paused_implies_running_witness :
  running (final (run_ops unix [(OpRunWithContext Background, os_ok);
                                (OpPause, os_ok)] idle)) = true
  /\ paused (st (exec windows OpKill os_ok started)) = false.
Proof.
  pose proof (paused_implies_running unix
                [(OpRunWithContext Background, os_ok); (OpPause, os_ok)]
                0 "echo" ["hello"]) as (H1 & _).
  pose proof (paused_implies_running windows [] 0 "echo" ["hello"])
    as (_ & H2 & _).
  split; [apply (H1 eq_refl) | apply (H2 OpKill os_ok started); reflexivity].
Defined.

(** ** Closing the queues *)

Lemma closeChannels_spec (os : OS) (p : Process) :
  chans_agree p ->
  closeChannels os p
  = if channelsClosed p then mkOut (Ret tt) p []
    else mkOut (Ret tt) (closed p) [EvCloseChan Stdout; EvCloseChan Stderr].
Proof.
  unfold chans_agree, closed.
  destruct p as [prog a c [soc sob] [sec seb] si pa ru bs cc].
  simpl. intros [-> ->]. destruct cc; reflexivity.
Qed.

Lemma watcher_cleanup_spec (os : OS) (p : Process) (w : chan_ref) :
  chans_agree p ->
  res (watcher_cleanup os p) = Ret tt
  /\ chans_agree (st (watcher_cleanup os p))
  /\ channelsClosed (st (watcher_cleanup os p)) = true
  /\ count (is_close w) (evs (watcher_cleanup os p))
     = (if channelsClosed p then 0 else 1)%nat.
Proof.
  unfold chans_agree.
  destruct p as [prog a c [soc sob] [sec seb] si pa ru bs cc].
  simpl. intros [-> ->]. destruct w; crush_m.
Qed.

Lemma cleanup_times_spec (n : nat) (os : OS) (w : chan_ref) :
  forall p, chans_agree p ->
  res (cleanup_times n os p) = Ret tt
  /\ count (is_close w) (evs (cleanup_times n os p))
     = (if channelsClosed p then 0
        else match n with O => 0 | S _ => 1 end)%nat.
Proof.
  induction n as [|n IH]; intros p Hp.
  - simpl. destruct (channelsClosed p); split; reflexivity.
  - destruct (watcher_cleanup_spec os p w Hp) as (Hr & Ha & Hc & Hn).
    destruct (IH _ Ha) as (IHr & IHn). rewrite Hc in IHn.
    simpl. unfold bind.
    destruct (watcher_cleanup os p) as [r p1 e1]. simpl in *. subst r.
    destruct (cleanup_times n os p1) as [r2 p2 e2]. simpl in *.
    split; [exact IHr|].
    rewrite count_app, Hn, IHn. destruct (channelsClosed p); reflexivity.
Qed.

(** C10: over any history of a handle each queue is closed at most once;
    in every reachable state [closeChannels] closes both queues and records
    it if that was not yet done and otherwise does nothing, and any number
    of invocations of the terminal cleanup returns without a panic and
    brings the number of closes of each queue to exactly one. *)
Theorem queues_closed_once (goos : GOOS) (h : list (op * OS)) (size : Z)
  (prog : string) (a : list string) (os : OS) (n : nat) (w : chan_ref) :
  (count (is_close w) (log (run_ops goos h (fresh size prog a))) <= 1)%nat
  /\ closeChannels os (final (run_ops goos h (fresh size prog a)))
     = (if channelsClosed (final (run_ops goos h (fresh size prog a)))
        then mkOut (Ret tt) (final (run_ops goos h (fresh size prog a))) []
        else mkOut (Ret tt)
               (closed (final (run_ops goos h (fresh size prog a))))
               [EvCloseChan Stdout; EvCloseChan Stderr])
  /\ closeChannels os
       (closed (final (run_ops goos h (fresh size prog a))))
     = mkOut (Ret tt)
         (closed (final (run_ops goos h (fresh size prog a)))) []
  /\ res (cleanup_times n os (final (run_ops goos h (fresh size prog a))))
     = Ret tt
  /\ count (is_close w)
       (log (run_ops goos h (fresh size prog a))
        ++ evs (cleanup_times (S n) os
                  (final (run_ops goos h (fresh size prog a)))))
     = 1%nat.
Proof.
  pose proof (fresh_wf size prog a) as (_ & _ & Hf).
  pose proof (run_ops_wf goos h _ (fresh_wf size prog a)) as (_ & _ & Ha).
  destruct (run_ops_close_count goos h w _ Hf) as [Hc _].
  simpl channelsClosed in Hc. unfold once in Hc.
  split; [|split; [|split; [|split]]].
  - rewrite Hc. destruct (channelsClosed _); auto.
  - now apply closeChannels_spec.
  - destruct (final (run_ops goos h (fresh size prog a)))
      as [prog' a' c [soc sob] [sec seb] si pa ru bs cc]. reflexivity.
  - apply (cleanup_times_spec n os w _ Ha).
  - rewrite count_app, Hc.
    destruct (cleanup_times_spec (S n) os w _ Ha) as [_ ->].
    destruct (channelsClosed _); reflexivity.
Qed.

(** ** Further properties: calls on a handle that is not running *)

(** X1: on a handle that is not running (never started, or exited) every
    control method fails with its guard's error, makes no request to the
    operating system and leaves the handle as it is. *)
Theorem not_running_rejected (goos : GOOS) (os : OS) (p : Process)
  (timeout : Duration) (data : string) (ord : eval_order) :
  running p = false ->
  Pause goos os p = mkOut (Ret (Some errPauseState)) p []
  /\ Resume goos os p = mkOut (Ret (Some errResumeState)) p []
  /\ Kill goos os p = mkOut (Ret (Some errNotRunning)) p []
  /\ Terminate goos os p = mkOut (Ret (Some errNotRunning)) p []
  /\ KillWithTimeout goos timeout os p
     = mkOut (Ret (Some errNotRunning)) p []
  /\ Wait ord os p = mkOut (Ret (None, Some errNotRunning)) p []
  /\ Write data os p = mkOut (Ret (Some errNotRunning)) p []
  /\ WriteString data os p = mkOut (Ret (Some errNotRunning)) p [].
Proof.
  destruct p as [prog a c so se si pa ru bs cc]. simpl. intros ->.
  destruct goos; repeat split.
Qed.

Lemma not_running_rejected_witness :
  Kill unix os_ok idle = mkOut (Ret (Some errNotRunning)) idle []
  /\ Wait CallThenField os_ok exited
     = mkOut (Ret (None, Some errNotRunning)) exited [].
Proof.
  pose proof (not_running_rejected unix os_ok idle Second "x" CallThenField
                eq_refl) as (_ & _ & H1 & _).
  pose proof (not_running_rejected unix os_ok exited Second "x"
                CallThenField eq_refl) as (_ & _ & _ & _ & _ & H2 & _).
  split; [exact H1 | exact H2].
Defined.

(** ** Further properties: starting *)

(** X2: when a start fails after the guard (a pipe cannot be created or
    the spawn fails) the call returns no queues and a wrapped system
    error, starts no goroutine, leaves [running] false and [paused] as it
    was, and has closed exactly the pipes it had created; a spawn was
    attempted only if it is the spawn that failed.  The command created for
    the attempt stays in the handle without a process, so [PID] returns -1
    from then on. *)
Theorem RunWithContext_failure (ctx : Context) (os os' : OS) (p : Process)
  (q1 q2 : option chan_ref) (e : error) :
  running p = false ->
  res (RunWithContext ctx os p) = Ret (q1, q2, Some e) ->
  q1 = None /\ q2 = None
  /\ (exists msg errno, e = Wrap_error msg (Sys_error errno))
  /\ running (st (RunWithContext ctx os p)) = false
  /\ paused (st (RunWithContext ctx os p)) = paused p
  /\ count is_go (evs (RunWithContext ctx os p)) = 0%nat
  /\ (forall w, In (EvPipeClose w) (evs (RunWithContext ctx os p))
      <-> In (EvPipe w) (evs (RunWithContext ctx os p))
          /\ os_pipe os w = None)
  /\ (In EvStart (evs (RunWithContext ctx os p)) ->
      exists errno, os_start os = inr errno)
  /\ (stdin (st (RunWithContext ctx os p)) = stdin p
      \/ stdin (st (RunWithContext ctx os p)) = Some {| wc_closed := true |})
  /\ PID os' (st (RunWithContext ctx os p))
     = mkOut (Ret (-1)) (st (RunWithContext ctx os p)) [].
Proof.
  destruct p as [prog a c so se si pa ru bs cc]. simpl. intros ->.
  unfold_c.
  destruct (os_pipe os StdoutPipe) eqn:E1; unfold_c;
    [|destruct (os_pipe os StderrPipe) eqn:E2; unfold_c;
      [|destruct (os_pipe os StdinPipe) eqn:E3; unfold_c;
        [|destruct (os_start os) eqn:E4; unfold_c]]];
    intros H; inversion H; subst; clear H;
    (split; [reflexivity|]); (split; [reflexivity|]);
    (split; [eexists; eexists; reflexivity|]);
    (split; [reflexivity|]); (split; [reflexivity|]);
    (split; [reflexivity|]);
    (split; [intros w; destruct w; simpl; rewrite ?E1, ?E2, ?E3;
             intuition congruence|]);
    (split; [simpl; intros; try (eexists; reflexivity);
             intuition congruence|]);
    (split; [auto|reflexivity]).
Qed.

Lemma RunWithContext_failure_witness :
  running (st (RunWithContext Background os_spawn_fails idle)) = false
  /\ PID os_ok (st (RunWithContext Background os_spawn_fails idle))
     = mkOut (Ret (-1)) (st (RunWithContext Background os_spawn_fails idle))
             [].
Proof.
  pose proof (RunWithContext_failure Background os_spawn_fails os_ok idle
                None None
                (Wrap_error "failed to start process" (Sys_error 2))
                eq_refl eq_refl) as (_ & _ & _ & H1 & _ & _ & _ & _ & _ & H2).
  split; [exact H1 | exact H2].
Defined.

(** X3: a start that succeeds (the only way [RunWithContext] returns a nil
    error) happens on a handle that was not running, returns the two queues
    of the handle, creates the three pipes, spawns once and then starts
    exactly the two line streamers and the completion watcher, in that
    order; afterwards the handle is running, holds a fresh command bound to
    the spawned process, an open stdin sink, and [PID] returns the id of
    that process. *)
Theorem RunWithContext_success (ctx : Context) (os os' : OS) (p : Process)
  (q1 q2 : option chan_ref) :
  res (RunWithContext ctx os p) = Ret (q1, q2, None) ->
  running p = false
  /\ q1 = Some Stdout /\ q2 = Some Stderr
  /\ evs (RunWithContext ctx os p)
     = [EvPipe StdoutPipe; EvPipe StderrPipe; EvPipe StdinPipe; EvStart;
        EvGo (GoStream Stdout); EvGo (GoStream Stderr); EvGo GoWatcher]
  /\ running (st (RunWithContext ctx os p)) = true
  /\ paused (st (RunWithContext ctx os p)) = paused p
  /\ stdin (st (RunWithContext ctx os p)) = Some {| wc_closed := false |}
  /\ exists pid,
       os_start os = inl pid
       /\ cmd (st (RunWithContext ctx os p))
          = Some (set_Process (Some {| Pid := pid |})
                    (CommandContext ctx (program p) (args p)))
       /\ PID os' (st (RunWithContext ctx os p))
          = mkOut (Ret pid) (st (RunWithContext ctx os p)) [].
Proof.
  destruct p as [prog a c so se si pa ru bs cc]. unfold_c.
  destruct ru; unfold_c; [discriminate|].
  destruct (os_pipe os StdoutPipe) eqn:E1; unfold_c; [discriminate|].
  destruct (os_pipe os StderrPipe) eqn:E2; unfold_c; [discriminate|].
  destruct (os_pipe os StdinPipe) eqn:E3; unfold_c; [discriminate|].
  destruct (os_start os) as [pid|] eqn:E4; unfold_c; [|discriminate].
  intros H. inversion H; subst. repeat split. exists pid. repeat split.
Qed.

Lemma RunWithContext_success_witness :
  running (st (RunWithContext Background os_ok idle)) = true
  /\ count is_go (evs (RunWithContext Background os_ok idle)) = 3%nat.
Proof.
  pose proof (RunWithContext_success Background os_ok os_ok idle
                (Some Stdout) (Some Stderr) eq_refl)
    as (_ & _ & _ & H1 & H2 & _).
  split; [exact H2 | now rewrite H1].
Defined.

(** [RunWithContext] never touches the queues, their flag or the
    construction parameters. *)
Lemma RunWithContext_frame (ctx : Context) (os : OS) (p : Process) :
  stdout (st (RunWithContext ctx os p)) = stdout p
  /\ stderr (st (RunWithContext ctx os p)) = stderr p
  /\ channelsClosed (st (RunWithContext ctx os p)) = channelsClosed p
  /\ bufferSize (st (RunWithContext ctx os p)) = bufferSize p
  /\ program (st (RunWithContext ctx os p)) = program p
  /\ args (st (RunWithContext ctx os p)) = args p.
Proof.
  destruct p as [prog a c so se si pa ru bs cc]. crush_m.
Qed.

Lemma streamOutput_open (lines : list string) (ch : chan) :
  chan_closed ch = false -> streamOutput lines ch = Ret lines.
Proof.
  intros H. induction lines as [|l rest IH]; simpl; [reflexivity|].
  now rewrite H, IH.
Qed.

(** X4: the queues are made once, by the constructor: [RunWithContext]
    hands out the queues the handle already has and never reopens them.
    While they are open a line streamer delivers every line in order; once
    the cleanup of a first run has closed them, a second start still
    succeeds, and the streamers it starts panic on the first line of
    output. *)
Theorem restart_streams_on_closed_queues (goos : GOOS) (h : list (op * OS))
  (size : Z) (prog : string) (a : list string) (ctx : Context) (os : OS)
  (w : chan_ref) (l : string) (lines : list string) :
  let p := final (run_ops goos h (fresh size prog a)) in
  let p' := st (RunWithContext ctx os p) in
  chan_of w p' = chan_of w p
  /\ (channelsClosed p = false ->
      streamOutput (l :: lines) (chan_of w p') = Ret (l :: lines))
  /\ (channelsClosed p = true ->
      streamOutput (l :: lines) (chan_of w p')
      = Panic "send on closed channel").
Proof.
  intros p p'.
  pose proof (run_ops_wf goos h _ (fresh_wf size prog a)) as (_ & _ & H1 & H2).
  fold p in H1, H2.
  destruct (RunWithContext_frame ctx os p) as (F1 & F2 & _).
  fold p' in F1, F2.
  assert (E : chan_of w p' = chan_of w p) by (destruct w; assumption).
  assert (C : chan_closed (chan_of w p) = channelsClosed p)
    by (destruct w; assumption).
  split; [exact E|]. rewrite E. split; intros Hc.
  - apply streamOutput_open. congruence.
  - simpl. rewrite C, Hc. reflexivity.
Qed.

Lemma restart_streams_on_closed_queues_witness :
  res (RunWithContext Background os_ok exited)
  = Ret (Some Stdout, Some Stderr, None)
  /\ streamOutput ["hello"] (stdout (st (RunWithContext Background os_ok
                                           exited)))
     = Panic "send on closed channel".
Proof.
  split; [reflexivity|].
  pose proof (restart_streams_on_closed_queues unix
                [(OpRunWithContext Background, os_ok); (OpWatcher, os_ok)]
                0 "echo" ["hello"] Background os_ok Stdout "hello" [])
    as (_ & _ & H).
  apply (H eq_refl).
Defined.

(** ** Further properties: the process id *)

Lemma PID_of_cmd (os : OS) (p : Process) :
  PID os p
  = match cmd p with
    | None => mkOut (Panic nil_deref) p []
    | Some c =>
        match Cmd_Process c with
        | Some pr => mkOut (Ret (Pid pr)) p []
        | None => mkOut (Ret (-1)) p []
        end
    end.
Proof.
  destruct p as [prog a c so se si pa ru bs cc]. unfold_m.
  destruct c as [c|]; [|reflexivity]. now destruct (Cmd_Process c).
Qed.

(** The process of the command, if there is a command. *)
Lemma exec_keeps_process (goos : GOOS) (o : op) (os : OS) (p : Process) :
  is_run o = false ->
  option_map Cmd_Process (cmd (st (exec goos o os p)))
  = option_map Cmd_Process (cmd p).
Proof.
  destruct p as [prog a c so se si pa ru bs cc].
  destruct o, goos; simpl; intros H; try discriminate H; clear H;
    unfold_m; repeat (case_step; unfold_m); simpl;
    rewrite ?Cmd_Wait_Process; congruence.
Qed.

(** X5: only [RunWithContext] changes what [PID] answers.  No other method
    and no step of the completion watcher binds, replaces or clears the
    process of the command, so once a start has succeeded [PID] keeps
    returning that process id, also after the process was killed or has
    exited and the watcher has cleaned up. *)
Theorem PID_stable (goos : GOOS) (o : op) (os os' : OS) (p : Process) :
  is_run o = false ->
  res (PID os' (st (exec goos o os p))) = res (PID os' p).
Proof.
  intros H. pose proof (exec_keeps_process goos o os p H) as E.
  rewrite !PID_of_cmd.
  destruct (cmd (st (exec goos o os p))) as [c'|], (cmd p) as [c|];
    simpl in E; try discriminate E; [|reflexivity].
  injection E as E. rewrite E. now destruct (Cmd_Process c).
Qed.

Lemma PID_stable_witness :
  res (PID os_ok exited) = Ret 4242
  /\ res (PID os_ok (st (Kill unix os_ok started))) = Ret 4242.
Proof.
  split.
  - change exited with (st (exec unix OpWatcher os_ok started)).
    rewrite (PID_stable unix OpWatcher os_ok os_ok started eq_refl).
    reflexivity.
  - change (st (Kill unix os_ok started))
      with (st (exec unix OpKill os_ok started)).
    rewrite (PID_stable unix OpKill os_ok os_ok started eq_refl).
    reflexivity.
Defined.

Lemma exec_cmd_none (goos : GOOS) (o : op) (os : OS) (p : Process) :
  (running p = true -> bound p = true) ->
  (cmd (st (exec goos o os p)) = None
   <-> cmd p = None
       /\ (forall v, res (exec goos o os p) = Ret v -> is_run o = false)).
Proof.
  destruct (is_run o) eqn:R.
  - destruct o; try discriminate R.
    destruct p as [prog a c so se si pa ru bs cc]. simpl.
    intros Hb. unfold_m. destruct ru.
    + specialize (Hb eq_refl). destruct c; [|discriminate Hb].
      unfold_m. split; [discriminate|intros [H _]; discriminate H].
    + unfold_m. repeat (case_step; unfold_m); simpl;
        (split; [discriminate|]); intros [_ H];
        specialize (H _ eq_refl); discriminate H.
  - intros _. pose proof (exec_keeps_process goos o os p R) as E.
    destruct (cmd (st (exec goos o os p))), (cmd p); simpl in E;
      try discriminate E; split; try discriminate; auto.
    intros [H _]. discriminate H.
Qed.

(** X6: over any history of a freshly constructed handle, [PID] faults
    exactly as long as [RunWithContext] has never been called: the first
    call, successful or not, installs a command and from then on [PID]
    returns (the process id or -1). *)
Theorem PID_panics_until_first_start (goos : GOOS) (h : list (op * OS))
  (size : Z) (prog : string) (a : list string) (os : OS) :
  res (PID os (final (run_ops goos h (fresh size prog a))))
  = Panic nil_deref
  <-> existsb run_called (returned (run_ops goos h (fresh size prog a)))
      = false.
Proof.
  rewrite PID_of_cmd.
  assert (G : forall p, wf p ->
            (cmd (final (run_ops goos h p)) = None
             <-> cmd p = None
                 /\ existsb run_called (returned (run_ops goos h p))
                    = false)).
  { induction h as [|[o os0] h IH]; intros p Hp; simpl.
    - intuition.
    - pose proof (exec_wf goos o os0 p Hp) as Hq.
      destruct Hp as (_ & Hb & _).
      pose proof (exec_cmd_none goos o os0 p Hb) as E.
      destruct (res (exec goos o os0 p)) as [v|w] eqn:R; simpl.
      + rewrite (IH _ Hq), E. change (run_called (o, v)) with (is_run o).
        split.
        * intros [[H1 H2] H3]. rewrite (H2 v eq_refl), H3. auto.
        * intros [H1 H2]. apply orb_false_elim in H2. destruct H2 as [H2 H3].
          repeat split; auto.
      + rewrite E. split; [intros [H _]; auto|].
        intros [H _]. split; [exact H|]. intros v Hv. discriminate Hv. }
  specialize (G _ (fresh_wf size prog a)). simpl in G.
  destruct (cmd (final (run_ops goos h (fresh size prog a)))) as [c|] eqn:C.
  - split.
    + destruct (Cmd_Process c); discriminate.
    + intros H. destruct G as [_ G]. specialize (G (conj eq_refl H)).
      discriminate G.
  - split; [intros _; now apply G | reflexivity].
Qed.

(** ** Further properties: writing to the process *)

(** A running handle has a stdin sink: [RunWithContext] installs it before
    the spawn and nothing ever resets it. *)
Lemma exec_stdin_present (goos : GOOS) (o : op) (os : OS) (p : Process) :
  (running p = true -> stdin_present p = true) ->
  running (st (exec goos o os p)) = true ->
  stdin_present (st (exec goos o os p)) = true.
Proof.
  unfold stdin_present.
  destruct p as [prog a c so se [[sc]|] pa ru bs cc];
    destruct o, goos; crush_x.
Qed.

Lemma run_ops_stdin_present (goos : GOOS) (h : list (op * OS)) :
  forall p, (running p = true -> stdin_present p = true) ->
  running (final (run_ops goos h p)) = true ->
  stdin_present (final (run_ops goos h p)) = true.
Proof.
  induction h as [|[o os] h IH]; intros p Hp; simpl; [exact Hp|].
  pose proof (exec_stdin_present goos o os p Hp) as Hq.
  destruct (res (exec goos o os p)); simpl; auto.
Qed.

(** X7: [Write] never changes the handle.  In every state a fresh handle
    reaches through the public methods and the watcher, a running handle
    has a stdin sink (it is never nil), so [Write] either is rejected as
    NotRunning without touching the sink, or makes exactly one write on the
    sink; the "stdin not available" error cannot occur.  The write returns
    the error of the operating system while the sink is open, and the
    closed-file error once a wait on the command has closed the sink, which
    [Wait] does while the handle is still running.  [WriteString] is the
    same call. *)
Theorem Write_on_reachable (goos : GOOS) (h : list (op * OS)) (size : Z)
  (prog : string) (a : list string) (data : string) (os : OS) :
  let p := final (run_ops goos h (fresh size prog a)) in
  (running p = true ->
   exists w,
     stdin p = Some w
     /\ Write data os p
        = mkOut (Ret (if wc_closed w then Some errClosed
                      else sys (os_stdin_write os)))
                p [EvStdinWrite data])
  /\ (running p = false ->
      Write data os p = mkOut (Ret (Some errNotRunning)) p [])
  /\ WriteString data os p = Write data os p
  /\ res (Write data os p) <> Ret (Some errStdinUnavailable).
Proof.
  intros p.
  assert (H : running p = true -> stdin_present p = true).
  { apply run_ops_stdin_present. simpl. discriminate. }
  revert H. generalize p. clear p.
  intros [prog' a' c so se si pa ru bs cc]. unfold stdin_present. simpl.
  intros H. split; [|split; [|split]].
  - intros ->. specialize (H eq_refl).
    destruct si as [[cl]|]; [|discriminate H].
    eexists. split; [reflexivity|]. destruct cl; reflexivity.
  - intros ->. reflexivity.
  - reflexivity.
  - destruct ru; [|discriminate]. specialize (H eq_refl).
    destruct si as [[cl]|]; [|discriminate H]. unfold_x.
    destruct cl; [discriminate|].
    destruct (os_stdin_write os); discriminate.
Qed.

Lemma Write_on_reachable_witness :
  res (Write "x" os_ok
         (final (run_ops unix [(OpRunWithContext Background, os_ok)] idle)))
  = Ret None
  /\ res (Write "x" os_ok
            (final (run_ops unix [(OpRunWithContext Background, os_ok);
                                  (OpWait CallThenField, os_ok)] idle)))
     = Ret (Some errClosed).
Proof.
  pose proof (Write_on_reachable unix [(OpRunWithContext Background, os_ok)]
                0 "echo" ["hello"] "x" os_ok) as (H1 & _).
  pose proof (Write_on_reachable unix
                [(OpRunWithContext Background, os_ok);
                 (OpWait CallThenField, os_ok)] 0 "echo" ["hello"] "x" os_ok)
    as (H2 & _).
  destruct (H1 eq_refl) as (w1 & E1 & W1).
  destruct (H2 eq_refl) as (w2 & E2 & W2).
  vm_compute in E1, E2. injection E1 as <-. injection E2 as <-.
  unfold idle. rewrite W1, W2. split; reflexivity.
Defined.

(** ** Further properties: pause and resume *)

(** X8: [Pause] and [Resume] are all-or-nothing on both platforms: when
    the call returns an error (wrong state, or the suspend or resume
    primitive failed) the handle is exactly as before, and when it returns
    nil the only field that changed is [paused]. *)
Theorem Pause_Resume_atomic (goos : GOOS) (os : OS) (p : Process) :
  (forall e, res (Pause goos os p) = Ret (Some e) ->
             st (Pause goos os p) = p)
  /\ (res (Pause goos os p) = Ret None ->
      st (Pause goos os p) = set_paused true p)
  /\ (forall e, res (Resume goos os p) = Ret (Some e) ->
                st (Resume goos os p) = p)
  /\ (res (Resume goos os p) = Ret None ->
      st (Resume goos os p) = set_paused false p).
Proof.
  destruct p as [prog a c so se si pa ru bs cc].
  destruct goos; crush_m.
Qed.

Lemma Pause_Resume_atomic_witness :
  st (Pause windows os_denied started) = started
  /\ st (Resume unix os_ok started) = started.
Proof.
  pose proof (Pause_Resume_atomic windows os_denied started) as (H1 & _).
  pose proof (Pause_Resume_atomic unix os_ok started) as (_ & _ & H2 & _).
  split; [apply (H1 _ eq_refl) | apply (H2 _ eq_refl)].
Defined.

(** X9: a successful [Pause] followed by a successful [Resume] gives back
    the handle exactly as it was, and between the two a second [Pause] is
    rejected with the InvalidState error without any request (the suspend
    primitive is never applied twice). *)
Theorem Pause_Resume_round_trip (goos : GOOS) (os1 os2 os3 : OS)
  (p : Process) :
  res (Pause goos os1 p) = Ret None ->
  Pause goos os3 (st (Pause goos os1 p))
  = mkOut (Ret (Some errPauseState)) (st (Pause goos os1 p)) []
  /\ (res (Resume goos os2 (st (Pause goos os1 p))) = Ret None ->
      st (Resume goos os2 (st (Pause goos os1 p))) = p).
Proof.
  destruct p as [prog a c so se si pa ru bs cc].
  destruct goos; unfold_m; repeat (case_step; unfold_m);
    intros; try discriminate; split; intros; try discriminate;
    try reflexivity; subst; try congruence.
Qed.

Lemma Pause_Resume_round_trip_witness :
  st (Resume windows os_ok (st (Pause windows os_ok started))) = started.
Proof.
  pose proof (Pause_Resume_round_trip windows os_ok os_ok os_ok started
                eq_refl) as (_ & H).
  apply (H eq_refl).
Defined.

(** X10: the Windows back end closes every process handle it opens,
    exactly once and on every path: in [Pause], [Resume] and
    [killWithSignal] the log holds at most one [OpenProcess], and one
    [CloseHandle] exactly when that [OpenProcess] succeeded; the NT suspend,
    NT resume and terminate requests are made only on an opened handle. *)
Theorem Windows_handles_released (os : OS) (p : Process)
  (timeout : Duration) (graceful : bool) :
  let balanced (a : Access) (l : list event) :=
    (count is_open l <= 1)%nat
    /\ count is_close_handle l
       = (match os_open_process os a with
          | None => count is_open l
          | Some _ => 0%nat
          end)
    /\ (forall x, In x [EvNtSuspendProcess; EvNtResumeProcess;
                       EvTerminateProcess 1] ->
        In x l -> In (EvOpenProcess a) l /\ os_open_process os a = None) in
  balanced PROCESS_SUSPEND_RESUME (evs (Windows.Pause os p))
  /\ balanced PROCESS_SUSPEND_RESUME (evs (Windows.Resume os p))
  /\ balanced PROCESS_TERMINATE
       (evs (Windows.killWithSignal timeout graceful os p)).
Proof.
  destruct p as [prog a c so se si pa ru bs cc].
  cbv zeta. split; [|split]; destruct graceful; unfold_m;
    repeat (case_step; unfold_m); unfold count; simpl;
    (split; [lia|]); (split; [reflexivity|]); intros ev Hx Hl;
    simpl in Hx, Hl; intuition (subst; try discriminate; auto).
Qed.

(** ** Further properties: termination *)

(** X11: [killWithSignal], hence [Kill], [Terminate] and
    [KillWithTimeout], sets the flags all-or-nothing on both platforms:
    whenever the call returns an error, whatever its cause, [running] and
    [paused] are as before; it returns nil only on a handle that was
    running, and then both are false.  Either way no field changes other
    than the flags, the command and the stdin sink, the two that a wait on
    the command updates and closes. *)
Theorem killWithSignal_atomic (goos : GOOS) (timeout : Duration)
  (graceful : bool) (os : OS) (p : Process) :
  (forall e, res (killWithSignal goos timeout graceful os p) = Ret (Some e) ->
     running (st (killWithSignal goos timeout graceful os p)) = running p
     /\ paused (st (killWithSignal goos timeout graceful os p)) = paused p
     /\ exists c w,
          st (killWithSignal goos timeout graceful os p)
          = set_stdin w (set_cmd c p))
  /\ (res (killWithSignal goos timeout graceful os p) = Ret None ->
      running p = true
      /\ exists c w,
           st (killWithSignal goos timeout graceful os p)
           = set_stdin w
               (set_paused false (set_running false (set_cmd c p)))).
Proof.
  destruct p as [prog a c so se si pa ru bs cc].
  destruct goos, graceful; unfold_m; repeat (case_step; unfold_m);
    split; intros; try discriminate;
    repeat split; try reflexivity; eexists; eexists; reflexivity.
Qed.

Lemma killWithSignal_atomic_witness :
  running (st (Kill unix os_denied started)) = true
  /\ running (st (Terminate windows os_ok started)) = false.
Proof.
  pose proof (killWithSignal_atomic unix defaultKillTimeout true os_denied
                started) as (H1 & _).
  pose proof (killWithSignal_atomic windows defaultKillTimeout true os_ok
                started) as (_ & H2).
  split; [apply (H1 _ eq_refl)|].
  destruct (H2 eq_refl) as (_ & c & w & E). unfold Terminate. rewrite E.
  reflexivity.
Defined.

Lemma done_first_late (os : OS) (timeout : Duration) :
  (os_exit_delay os = None
   \/ exists d, os_exit_delay os = Some d /\ Z.max 0 timeout < d) ->
  done_first os timeout = false.
Proof.
  unfold done_first. intros [-> | (d & -> & H)]; [reflexivity|].
  destruct (d <? Z.max 0 timeout) eqn:E1; [apply Z.ltb_lt in E1; lia|].
  destruct (d =? Z.max 0 timeout) eqn:E2; [apply Z.eqb_eq in E2; lia|].
  reflexivity.
Qed.

(** X12: escalation.  When the graceful algorithm runs on a running handle,
    the gentle stop was sent, and the process has not exited when the
    timeout elapses (it never exits, or only later), the forceful kill is
    issued after the timer and is the last request; the call returns what
    the kill returned, and clears [running] and [paused] if and only if the
    kill succeeded. *)
Theorem graceful_timeout_escalates (goos : GOOS) (timeout : Duration)
  (os : OS) (p : Process) :
  running p = true -> bound p = true ->
  (goos = unix -> os_signal os SIGTERM = None) ->
  (os_exit_delay os = None
   \/ exists d, os_exit_delay os = Some d /\ Z.max 0 timeout < d) ->
  (exists before,
      evs (killWithSignal goos timeout true os p)
      = (before ++ [EvTimeAfter timeout; EvKill])%list
      /\ hd_error before = Some (match goos with
                                 | unix => EvSignal SIGTERM
                                 | windows => EvGo GoCmdWait
                                 end)
      /\ count is_kill before = 0%nat)
  /\ res (killWithSignal goos timeout true os p) = Ret (sys (os_kill os))
  /\ (running (st (killWithSignal goos timeout true os p)) = false
      <-> os_kill os = None)
  /\ (os_kill os = None ->
      paused (st (killWithSignal goos timeout true os p)) = false).
Proof.
  destruct p as [prog a [[cx pth ar [pr|] ps]|] so se si pa ru bs cc];
    simpl; intros -> Hb; try discriminate Hb; clear Hb.
  intros Hs Hd. pose proof (done_first_late os timeout Hd) as Hl.
  destruct goos.
  - specialize (Hs eq_refl). unfold_c. rewrite Hs. unfold_c.
    rewrite Hl. unfold_c.
    destruct (os_kill os); unfold_c;
      (split; [exists [EvSignal SIGTERM; EvGo GoCmdWait]; repeat split|]);
      repeat split; intros; try discriminate; try congruence; auto.
  - clear Hs. unfold_c.
    destruct (os_open_process os PROCESS_TERMINATE); unfold_c;
      rewrite Hl; unfold_c; destruct (os_kill os); unfold_c;
      (split;
       [first [ exists [EvGo GoCmdWait; EvOpenProcess PROCESS_TERMINATE];
                split; [reflexivity | split; reflexivity]
              | exists [EvGo GoCmdWait; EvOpenProcess PROCESS_TERMINATE;
                        EvTerminateProcess 1; EvCloseHandle];
                split; [reflexivity | split; reflexivity] ]|]);
      repeat split; intros; try discriminate; try congruence; auto.
Qed.

Lemma graceful_timeout_escalates_witness :
  res (killWithSignal unix Second true os_stubborn started) = Ret None
  /\ running (st (killWithSignal windows Second true os_stubborn started))
     = false.
Proof.
  pose proof (graceful_timeout_escalates unix Second os_stubborn started
                eq_refl eq_refl (fun _ => eq_refl) (or_introl eq_refl))
    as (_ & H1 & _).
  assert (H2 : (windows = unix -> os_signal os_stubborn SIGTERM = None) ->
               running (st (killWithSignal windows Second true os_stubborn
                              started)) = false).
  { intros H.
    pose proof (graceful_timeout_escalates windows Second os_stubborn started
                  eq_refl eq_refl H (or_introl eq_refl))
      as (_ & _ & H2 & _).
    apply H2. reflexivity. }
  split.
  - exact H1.
  - apply H2. discriminate.
Defined.

(** X13: [KillWithTimeout] does not use its timeout: with any two timeouts
    the call makes the same requests, returns the same result and leaves
    the same handle (it never arms a timer). *)
Theorem KillWithTimeout_ignores_timeout (goos : GOOS) (t1 t2 : Duration)
  (os : OS) (p : Process) :
  KillWithTimeout goos t1 os p = KillWithTimeout goos t2 os p
  /\ forall d, ~ In (EvTimeAfter d) (evs (KillWithTimeout goos t1 os p)).
Proof.
  destruct p as [prog a c so se si pa ru bs cc].
  split; [destruct goos; reflexivity|].
  intros d. destruct goos; unfold_m; repeat (case_step; unfold_m); simpl;
    intuition discriminate.
Qed.

(** ** Further properties: the completion watcher *)

(** X14: the completion watcher of a start with context [ctx], on a handle
    whose queues agree with [channelsClosed] and whose process is bound if
    the context fires, never faults.  It kills the process first if and
    only if the context has fired, and ignores the result of the kill.  As
    long as the line streamers have not finished it does nothing more and
    the handle stays as it is, still running.  Once they have finished it
    closes the stdin sink if there is one, then the stdout queue and the
    stderr queue unless they are closed already; afterwards [running] and
    [paused] are false, the sink and both queues are closed, and nothing
    else has changed. *)
Theorem watcher_postcondition (ctx : Context) (drained : bool) (os : OS)
  (p : Process) :
  let fired := match ctx with
               | Background => false
               | Cancellable => os_ctx_done os
               end in
  chans_agree p ->
  (fired = true -> bound p = true) ->
  res (watcher_of ctx drained os p) = Ret drained
  /\ evs (watcher_of ctx drained os p)
     = ((if fired then [EvKill] else [])
        ++ (if drained
            then (match stdin p with
                  | Some _ => [EvPipeClose StdinPipe]
                  | None => []
                  end)
                 ++ (if channelsClosed p then []
                     else [EvCloseChan Stdout; EvCloseChan Stderr])
            else []))%list
  /\ st (watcher_of ctx drained os p)
     = (if drained
        then set_stdin (close_stdin (stdin p))
               (set_paused false (set_running false (closed p)))
        else p)
  /\ (forall c, cmd p = Some c -> cmd_ctx c = ctx ->
      st (watcher os p) = st (watcher_of ctx true os p)
      /\ evs (watcher os p) = evs (watcher_of ctx true os p)).
Proof.
  unfold chans_agree. cbv zeta.
  destruct p as [prog a [[cx pth ar [pr|] ps]|] [soc sob] [sec seb]
                   si pa ru bs cc];
    simpl; intros [-> ->] Hb; unfold closed, watcher_of;
    destruct ctx, drained; unfold_x;
    repeat (case_step; unfold_x); simpl in Hb;
    try (assert (Hf : false = true)
           by (apply Hb; first [reflexivity | assumption]);
         discriminate Hf);
    repeat split; intros; try discriminate;
    repeat match goal with
           | H : Some _ = Some _ |- _ => injection H as H; subst
           end;
    try discriminate; try congruence; reflexivity.
Qed.

Lemma watcher_postcondition_witness :
  evs (watcher_of Cancellable true os_stubborn started_ctx)
  = [EvKill; EvPipeClose StdinPipe; EvCloseChan Stdout; EvCloseChan Stderr]
  /\ st (watcher_of Cancellable false os_stubborn started_ctx) = started_ctx
  /\ running (st (watcher_of Background true os_denied started)) = false.
Proof.
  pose proof (watcher_postcondition Cancellable true os_stubborn started_ctx
                (conj eq_refl eq_refl) (fun _ => eq_refl)) as (_ & H1 & _).
  pose proof (watcher_postcondition Cancellable false os_stubborn started_ctx
                (conj eq_refl eq_refl) (fun _ => eq_refl))
    as (_ & _ & H2 & _).
  pose proof (watcher_postcondition Background true os_denied started
                (conj eq_refl eq_refl)) as H3.
  split; [exact H1|]. split; [exact H2|].
  destruct H3 as (_ & _ & H3 & _); [discriminate|]. now rewrite H3.
Defined.

(** X15: [Run] starts the process under the background context, which
    never fires: whatever the environment reports, the watcher of a handle
    started with [Run] never kills the process; with a cancellable context
    that has fired it does, before any cleanup. *)
Theorem Run_never_cancelled (os os' : OS) (p : Process) :
  running p = false ->
  Run os p = RunWithContext Background os p
  /\ count is_kill (evs (watcher os' (st (Run os p)))) = 0%nat
  /\ (res (RunWithContext Cancellable os p)
      = Ret (Some Stdout, Some Stderr, None) ->
      os_ctx_done os' = true ->
      hd_error (evs (watcher os' (st (RunWithContext Cancellable os p))))
      = Some EvKill).
Proof.
  destruct p as [prog a c [soc sob] [sec seb] si pa ru bs cc]. simpl.
  intros ->. split; [reflexivity|]. split.
  - unfold Run. unfold_x. repeat (case_step; unfold_x); reflexivity.
  - unfold_x. repeat (case_step; unfold_x); intros; try discriminate;
      try reflexivity; congruence.
Qed.

Lemma Run_never_cancelled_witness :
  count is_kill (evs (watcher os_stubborn (st (Run os_ok idle)))) = 0%nat
  /\ hd_error (evs (watcher os_stubborn
                      (st (RunWithContext Cancellable os_ok idle))))
     = Some EvKill.
Proof.
  pose proof (Run_never_cancelled os_ok os_stubborn idle eq_refl)
    as (_ & H1 & H2).
  split; [exact H1 | apply (H2 eq_refl eq_refl)].
Defined.

(** ** Further properties: no faults *)

Lemma exec_returns (goos : GOOS) (o : op) (os : OS) (p : Process) :
  wf p -> unguarded o = false -> exists v, res (exec goos o os p) = Ret v.
Proof.
  unfold wf, chans_agree.
  destruct p as [prog a [[cx pth ar [pr|] ps]|] [soc sob] [sec seb]
                   si pa ru bs cc];
    simpl; intros (H1 & H2 & -> & ->) Hu;
    destruct o; try discriminate Hu; clear Hu;
    destruct goos; unfold_c; repeat (case_step; unfold_c);
    try (eexists; reflexivity);
    exfalso; subst; specialize (H2 eq_refl); discriminate H2.
Qed.

(** X16: in every state a freshly constructed handle reaches, every public
    method other than [PID] returns when it is called with a context that
    is not nil: [RunWithContext], [Pause], [Resume], [Kill],
    [KillWithTimeout], [Terminate], [Wait], [IsRunning], [IsPaused],
    [Write] and the two halves of the watcher's cleanup never dereference a
    nil command or process and never close a closed queue.  The one fault
    of a guarded method is [RunWithContext] on a nil context: it is
    rejected as AlreadyRunning on a running handle and panics in
    [exec.CommandContext] otherwise, in both cases before the handle is
    touched. *)
Theorem guarded_methods_return (goos : GOOS) (h : list (op * OS)) (size : Z)
  (prog : string) (a : list string) (o : op) (os : OS) :
  let p := final (run_ops goos h (fresh size prog a)) in
  (unguarded o = false -> exists v, res (exec goos o os p) = Ret v)
  /\ (forall ctx, RunWithContext_nilable (Some ctx) os p
                  = RunWithContext ctx os p)
  /\ RunWithContext_nilable None os p
     = if running p
       then mkOut (Ret (None, None, Some errAlreadyRunning)) p []
       else mkOut (Panic "nil Context") p [].
Proof.
  intros p. split; [|split].
  - intros Hu. apply exec_returns; [|exact Hu].
    apply run_ops_wf, fresh_wf.
  - reflexivity.
  - destruct p as [prog' a' c so se si pa ru bs cc]. destruct ru; reflexivity.
Qed.

Lemma guarded_methods_return_witness :
  exists v, res (exec unix (OpWait FieldThenCall) os_ok exited) = Ret v.
Proof.
  pose proof (guarded_methods_return unix
                [(OpRunWithContext Background, os_ok); (OpWatcher, os_ok)]
                0 "echo" ["hello"] (OpWait FieldThenCall) os_ok) as (H & _).
  apply (H eq_refl).
Defined.

(** ** Further properties: the two families of back end files *)

(** X17: the locked methods [Pause], [Resume] and [killWithSignal] behave,
    on each platform, as the state guard followed by the primitive of the
    other back end file ([pauseImpl], [resumeImpl], [killWithSignalImpl])
    and the flag update when the primitive returned nil: same requests in
    the same order, same result, same final handle.  The primitives
    themselves never change [running] or [paused]. *)
Theorem locked_methods_over_Impl (goos : GOOS) (timeout : Duration)
  (graceful : bool) (os : OS) (p : Process) :
  Pause goos os p = Pause_over_Impl goos os p
  /\ Resume goos os p = Resume_over_Impl goos os p
  /\ killWithSignal goos timeout graceful os p
     = killWithSignal_over_Impl goos timeout graceful os p
  /\ running (st (pauseImpl goos os p)) = running p
  /\ paused (st (pauseImpl goos os p)) = paused p
  /\ running (st (resumeImpl goos os p)) = running p
  /\ paused (st (resumeImpl goos os p)) = paused p
  /\ running (st (killWithSignalImpl goos timeout graceful os p)) = running p
  /\ paused (st (killWithSignalImpl goos timeout graceful os p)) = paused p.
Proof.
  destruct p as [prog a c so se si pa ru bs cc].
  repeat split; destruct goos, graceful;
    cbv beta iota zeta delta
      [pauseImpl resumeImpl killWithSignalImpl
       UnixImpl.pauseImpl UnixImpl.pauseUnix UnixImpl.resumeImpl
       UnixImpl.resumeUnix UnixImpl.killWithSignalImpl
       UnixImpl.killWithSignalUnix
       WindowsImpl.pauseImpl WindowsImpl.pauseWindows WindowsImpl.resumeImpl
       WindowsImpl.resumeWindows WindowsImpl.killWithSignalImpl
       WindowsImpl.killWithSignalWindows
       Pause_over_Impl Resume_over_Impl killWithSignal_over_Impl];
    unfold_m; repeat (case_step; unfold_m); reflexivity.
Qed.

(** ** Further properties: after the end *)

(** X18: termination is final for the control methods.  After a
    termination call that returned nil, and likewise after the completion
    watcher has run, the handle is not running: [Wait] returns the
    NotRunning error instead of an exit status, a second [Kill] and [Write]
    return NotRunning, [Pause] and [Resume] return the InvalidState error,
    all without any request to the operating system. *)
Theorem stopped_handle_rejects (goos : GOOS) (timeout : Duration)
  (graceful : bool) (os os' : OS) (p : Process) (ord : eval_order)
  (data : string) :
  let rejects (q : Process) :=
    Wait ord os' q = mkOut (Ret (None, Some errNotRunning)) q []
    /\ Kill goos os' q = mkOut (Ret (Some errNotRunning)) q []
    /\ Write data os' q = mkOut (Ret (Some errNotRunning)) q []
    /\ Pause goos os' q = mkOut (Ret (Some errPauseState)) q []
    /\ Resume goos os' q = mkOut (Ret (Some errResumeState)) q [] in
  (res (killWithSignal goos timeout graceful os p) = Ret None ->
   rejects (st (killWithSignal goos timeout graceful os p)))
  /\ (res (watcher os p) = Ret tt -> rejects (st (watcher os p))).
Proof.
  assert (R : forall q, running q = false ->
            Wait ord os' q = mkOut (Ret (None, Some errNotRunning)) q []
            /\ Kill goos os' q = mkOut (Ret (Some errNotRunning)) q []
            /\ Write data os' q = mkOut (Ret (Some errNotRunning)) q []
            /\ Pause goos os' q = mkOut (Ret (Some errPauseState)) q []
            /\ Resume goos os' q = mkOut (Ret (Some errResumeState)) q []).
  { intros [prog a c so se si pa ru bs cc]. simpl. intros ->.
    destruct goos; repeat split. }
  cbv zeta. split; intros H; apply R; revert H;
    destruct p as [prog a c [soc sob] [sec seb] si pa ru bs cc].
  - destruct goos, graceful; unfold_m; repeat (case_step; unfold_m);
      intros; try discriminate; reflexivity.
  - unfold_m; repeat (case_step; unfold_m);
      intros; try discriminate; reflexivity.
Qed.

Lemma stopped_handle_rejects_witness :
  Wait CallThenField os_ok (st (Kill unix os_ok started))
  = mkOut (Ret (None, Some errNotRunning)) (st (Kill unix os_ok started)) []
  /\ Wait CallThenField os_ok (st (watcher os_ok started))
     = mkOut (Ret (None, Some errNotRunning)) (st (watcher os_ok started)) [].
Proof.
  pose proof (stopped_handle_rejects unix defaultKillTimeout true os_ok os_ok
                started CallThenField "x") as (H1 & H2).
  split.
  - apply (H1 eq_refl).
  - apply (H2 eq_refl).
Defined.

(** ** Further properties: when the calls succeed *)

(** X19: on a handle with a bound process, [Pause] returns nil exactly
    when the handle is running and not paused and the suspend primitive
    reported success (the signal was sent; on Windows the process was
    opened and the NT status is zero); likewise [Resume] on a paused
    handle. *)
Theorem Pause_Resume_succeed_iff (goos : GOOS) (os : OS) (p : Process) :
  bound p = true ->
  (res (Pause goos os p) = Ret None
   <-> running p = true /\ paused p = false /\ suspend_ok goos os = true)
  /\ (res (Resume goos os p) = Ret None
      <-> running p = true /\ paused p = true /\ resume_ok goos os = true).
Proof.
  destruct p as [prog a [[cx pth ar [pr|] ps]|] so se si pa ru bs cc];
    simpl; intros Hb; try discriminate Hb; clear Hb.
  unfold suspend_ok, resume_ok.
  destruct goos; unfold_c; repeat (case_step; unfold_c);
    repeat split; intros; try discriminate;
    repeat match goal with
           | H : _ /\ _ |- _ => destruct H
           end; try discriminate; try congruence; auto.
Qed.

Lemma Pause_Resume_succeed_iff_witness :
  res (Pause windows os_ok started) = Ret None
  /\ res (Pause unix os_denied started) <> Ret None.
Proof.
  pose proof (Pause_Resume_succeed_iff windows os_ok started eq_refl)
    as (H1 & _).
  pose proof (Pause_Resume_succeed_iff unix os_denied started eq_refl)
    as (H2 & _).
  split.
  - apply H1. repeat split.
  - intros H. apply H2 in H. destruct H as (_ & _ & H). discriminate H.
Defined.

(** X20: on a handle with a bound process, the termination algorithm
    returns nil exactly when the handle is running and either the graceful
    race was entered and won by the process, or the forceful kill was
    reached (not graceful, or the timer won) and succeeded. *)
Theorem killWithSignal_succeeds_iff (goos : GOOS) (timeout : Duration)
  (graceful : bool) (os : OS) (p : Process) :
  bound p = true ->
  (res (killWithSignal goos timeout graceful os p) = Ret None
   <-> running p = true
       /\ (if graceful
           then gentle_passed goos os
                && (done_first os timeout || kill_ok os)
           else kill_ok os) = true).
Proof.
  destruct p as [prog a [[cx pth ar [pr|] ps]|] so se si pa ru bs cc];
    simpl; intros Hb; try discriminate Hb; clear Hb.
  unfold gentle_passed, kill_ok.
  destruct goos, graceful; unfold_c; repeat (case_step; unfold_c);
    simpl; repeat split; intros;
    repeat match goal with
           | H : _ /\ _ |- _ => destruct H
           end; try discriminate; try congruence; auto.
Qed.

Lemma killWithSignal_succeeds_iff_witness :
  res (killWithSignal unix Second true os_stubborn started) = Ret None
  /\ res (killWithSignal windows Second false os_denied started) <> Ret None.
Proof.
  pose proof (killWithSignal_succeeds_iff unix Second true os_stubborn
                started eq_refl) as H1.
  pose proof (killWithSignal_succeeds_iff windows Second false os_denied
                started eq_refl) as H2.
  split.
  - apply H1. repeat split.
  - intros H. apply H2 in H. destruct H as (_ & H). discriminate H.
Defined.

(** ** Further properties: waiting *)

(** X21: [Wait] changes nothing in the handle but the command it waited
    on and the stdin sink, which the wait on the command closes; in
    particular it does not clear [running].  After a [Wait] that collected
    the exit status, the handle still reports running until the watcher has
    cleaned up, its stdin sink is closed, and a second [Wait] in that window
    does not wait again: it returns the stored status together with the
    error of the refused second wait. *)
Theorem Wait_keeps_flags (ord ord' : eval_order) (os os' : OS) (p : Process) :
  (exists c w, st (Wait ord os p) = set_stdin w (set_cmd c p))
  /\ (forall c s, running p = true -> cmd p = Some c ->
      Cmd_Process c <> None -> Cmd_ProcessState c = None ->
      os_wait os = inl s ->
      res (IsRunning os' (st (Wait ord os p))) = Ret true
      /\ stdin (st (Wait ord os p)) = close_stdin (stdin p)
      /\ res (Wait ord' os' (st (Wait ord os p)))
         = Ret (Some s, Some (New_error "exec: Wait was already called"))).
Proof.
  destruct p as [prog a c0 so se si pa ru bs cc]. split.
  - unfold_m. repeat (case_step; unfold_m); eexists; eexists; reflexivity.
  - simpl. intros [cx pth ar [pr|] ps] s -> -> Hp Hs Hw; simpl in Hp, Hs;
      [|congruence]. subst ps.
    unfold_m. unfold Cmd_Wait. simpl. rewrite Hw. simpl.
    split; [reflexivity|]. split; [reflexivity|].
    destruct ord'; reflexivity.
Qed.

Lemma Wait_keeps_flags_witness :
  res (IsRunning os_ok (st (Wait CallThenField os_ok started))) = Ret true
  /\ stdin (st (Wait CallThenField os_ok started))
     = Some {| wc_closed := true |}
  /\ res (Wait CallThenField os_ok (st (Wait CallThenField os_ok started)))
     = Ret (Some {| ps_pid := 4242; ExitCode := 0 |},
            Some (New_error "exec: Wait was already called")).
Proof.
  pose proof (Wait_keeps_flags CallThenField CallThenField os_ok os_ok
                started) as (_ & H).
  apply (H _ _ eq_refl eq_refl); [discriminate | reflexivity | reflexivity].
Defined.

(** ** Further properties: what a method never does *)

(** X22: only a successful [RunWithContext] makes a handle running: if a
    call or a watcher step finds [running] false and leaves it true, it was
    a [RunWithContext] that returned both queues and no error. *)
Theorem only_start_sets_running (goos : GOOS) (o : op) (os : OS)
  (p : Process) :
  running p = false ->
  running (st (exec goos o os p)) = true ->
  exists ctx,
    o = OpRunWithContext ctx
    /\ res (exec goos o os p) = Ret (VRun (Some Stdout, Some Stderr, None)).
Proof.
  destruct p as [prog a c so se si pa ru bs cc]. simpl. intros ->.
  destruct o, goos; unfold_m; repeat (case_step; unfold_m);
    intros; try discriminate; eexists; split; reflexivity.
Qed.

Lemma only_start_sets_running_witness :
  exists ctx,
    OpRunWithContext Background = OpRunWithContext ctx
    /\ res (exec unix (OpRunWithContext Background) os_ok idle)
       = Ret (VRun (Some Stdout, Some Stderr, None)).
Proof.
  apply (only_start_sets_running unix (OpRunWithContext Background) os_ok
           idle eq_refl eq_refl).
Defined.

(** X23: each kind of request comes from the methods meant to make it.  A
    spawn and a pipe creation come only from [RunWithContext]; a forceful
    kill only from [Kill],
    [KillWithTimeout], [Terminate] and the watcher; a gentle stop only from
    [Kill] and [Terminate]; a suspend or resume request only from [Pause]
    and [Resume]; queues are closed only by the watcher's cleanup; and the
    queries [IsRunning], [IsPaused] and [PID] make no request and leave the
    handle as it is. *)
Theorem requests_confined (goos : GOOS) (o : op) (os : OS) (p : Process) :
  (is_run o = false ->
   count is_start (evs (exec goos o os p)) = 0%nat
   /\ forall w, ~ In (EvPipe w) (evs (exec goos o os p)))
  /\ (may_kill o = false -> count is_kill (evs (exec goos o os p)) = 0%nat)
  /\ (may_stop_gently o = false ->
      count is_gentle (evs (exec goos o os p)) = 0%nat)
  /\ (o <> OpPause -> o <> OpResume ->
      count is_suspend_resume (evs (exec goos o os p)) = 0%nat)
  /\ (may_close o = false ->
      forall w, ~ In (EvCloseChan w) (evs (exec goos o os p)))
  /\ (o = OpIsRunning \/ o = OpIsPaused \/ o = OpPID ->
      evs (exec goos o os p) = [] /\ st (exec goos o os p) = p).
Proof.
  destruct p as [prog a c so se si pa ru bs cc].
  split; [|split; [|split; [|split; [|split]]]].
  - intros H; destruct o, goos; try discriminate H; clear H;
      unfold_m; repeat (case_step; unfold_m); unfold count; simpl;
      (split; [reflexivity | intros chn; intuition discriminate]).
  - intros H; destruct o, goos; try discriminate H; clear H;
      unfold_m; repeat (case_step; unfold_m); reflexivity.
  - intros H; destruct o, goos; try discriminate H; clear H;
      unfold_m; repeat (case_step; unfold_m); reflexivity.
  - intros H1 H2; destruct o, goos; try congruence; clear H1 H2;
      unfold_m; repeat (case_step; unfold_m); reflexivity.
  - intros H; destruct o, goos; try discriminate H; clear H;
      unfold_m; repeat (case_step; unfold_m); simpl;
      intros chn; intuition discriminate.
  - intros [-> | [-> | ->]]; destruct goos;
      unfold_m; repeat (case_step; unfold_m); split; reflexivity.
Qed.

Lemma requests_confined_witness :
  count is_kill (evs (exec unix OpPause os_ok started)) = 0%nat
  /\ st (exec windows OpPID os_ok started) = started.
Proof.
  pose proof (requests_confined unix OpPause os_ok started)
    as (_ & H1 & _).
  pose proof (requests_confined windows OpPID os_ok started)
    as (_ & _ & _ & _ & _ & H2).
  split; [apply (H1 eq_refl)|].
  destruct (H2 (or_intror (or_intror eq_refl))) as [_ H]. exact H.
Defined.
